(** * OnlineMQ client library (onlinemq.py): a shallow embedding

    The development follows the layout of the Python module:
    the exception classes, [XmlHelper], [OmqMessage], [OmqQueue] and
    [OmqConnection].  Python byte strings are Rocq strings; the module is
    Python 2 code and the model covers ASCII text (for which [str] and
    [unicode] objects coincide).  Python objects held by message and queue
    fields are the integers and strings the codec produces ([value]), with
    [None] as [option].

    Exceptions are explicit: a computation of type [exc A] either returns a
    result or raises an [exn].  The library functions the module imports
    ([minidom], [saxutils], [httplib], the builtins [int], [str], [repr],
    [strip], [replace], [lower]) are modelled next to their users; the XML
    parser [minidom.parseString] and the HTTPS transport are parameters of
    the functions that call them. *)

From Stdlib Require Import String Ascii List ZArith Bool Lia.
From Stdlib Require Decimal DecimalString DecimalZ DecimalPos.
Import ListNotations.

Local Open Scope list_scope.
Local Open Scope string_scope.

(** ** Exceptions *)

(** The exception classes that can arise in the module.  [OmqException] and
    [OmqServerException] are the module's own (lines 89-113); the others are
    the builtin and library errors raised underneath it.  All of them derive
    from [Exception]. *)
Inductive exn : Type :=
| ExpatError (msg : string)
| ValueError (msg : string)
| AttributeError (msg : string)
| NameError (msg : string)
| TypeError (msg : string)
| IOError (msg : string)
| OmqException (value : string)
| OmqServerException (error : string).

Inductive exc (A : Type) : Type :=
| Ok (a : A)
| Raise (e : exn).

Arguments Ok {A} a.
Arguments Raise {A} e.

Definition bind {A B : Type} (c : exc A) (k : A -> exc B) : exc B :=
  match c with
  | Ok a => k a
  | Raise e => Raise e
  end.

Notation "x <- c1 ;; c2" := (bind c1 (fun x => c2))
  (at level 61, c1 at next level, right associativity).

(** [try: body / except <all>, e: handler e] *)
Definition try_except {A : Type} (body : exc A) (handler : exn -> exc A) : exc A :=
  match body with
  | Ok a => Ok a
  | Raise e => handler e
  end.

(** The module's own exception classes, as opposed to errors of the
    language and of the libraries underneath. *)
Definition is_library_error (e : exn) : bool :=
  match e with
  | OmqException _ | OmqServerException _ => true
  | _ => false
  end.

(** ** Characters and strings *)

Definition dquote : ascii := "034"%char.
Definition squote : ascii := "039"%char.
Definition backslash : ascii := "092"%char.
Definition TAB : ascii := "009"%char.
Definition LF : ascii := "010"%char.
Definition VT : ascii := "011"%char.
Definition FF : ascii := "012"%char.
Definition CR : ascii := "013"%char.

Definition str1 (c : ascii) : string := String c "".

Fixpoint mem (c : ascii) (chars : string) : bool :=
  match chars with
  | "" => false
  | String d r => Ascii.eqb c d || mem c r
  end.

(** C [isspace] in the "C" locale, as used by [int] and [strip]. *)
Definition whitespace : string :=
  String " " (String TAB (String LF (String VT (String FF (String CR ""))))).

Definition is_digit (c : ascii) : bool :=
  let n := nat_of_ascii c in (48 <=? n)%nat && (n <=? 57)%nat.

Fixpoint all_chars (p : ascii -> bool) (s : string) : bool :=
  match s with
  | "" => true
  | String c r => p c && all_chars p r
  end.

(** [s.lstrip(chars)], [s.rstrip(chars)], [s.strip(chars)]: remove from the
    ends every character that occurs in [chars]. *)
Fixpoint lstrip (chars s : string) : string :=
  match s with
  | "" => ""
  | String c r => if mem c chars then lstrip chars r else s
  end.

Fixpoint rstrip (chars s : string) : string :=
  match s with
  | "" => ""
  | String c r =>
      match rstrip chars r with
      | "" => if mem c chars then "" else str1 c
      | r' => String c r'
      end
  end.

Definition strip (chars s : string) : string := rstrip chars (lstrip chars s).

(** [s.lower()] on ASCII. *)
Definition lower_char (c : ascii) : ascii :=
  let n := nat_of_ascii c in
  if (65 <=? n)%nat && (n <=? 90)%nat then ascii_of_nat (n + 32) else c.

Fixpoint lower (s : string) : string :=
  match s with
  | "" => ""
  | String c r => String (lower_char c) (lower r)
  end.

(** [s.replace(old, new)] for a non-empty [old]: every non-overlapping
    occurrence, leftmost first.  [skip] counts the characters of a matched
    occurrence that are still to be passed over. *)
Fixpoint replace_from (old new : string) (skip : nat) (s : string) : string :=
  match s with
  | "" => ""
  | String c r =>
      match skip with
      | S k => replace_from old new k r
      | O =>
          if String.prefix old s
          then new ++ replace_from old new (String.length old - 1) r
          else String c (replace_from old new 0 r)
      end
  end.

Definition replace (old new s : string) : string := replace_from old new 0 s.

(** ** Python values *)

Inductive value : Type :=
| VInt (z : Z)
| VStr (s : string).

(** [str(n)] and ['%d' % n] for an integer. *)
Definition str_of_Z (z : Z) : string := DecimalString.NilZero.string_of_int (Z.to_int z).

(** [str(v)] *)
Definition py_str (v : value) : string :=
  match v with
  | VInt z => str_of_Z z
  | VStr s => s
  end.

(** Truth value of an optional object: [None], [0] and [''] are false. *)
Definition truthy (v : option value) : bool :=
  match v with
  | None => false
  | Some (VInt z) => negb (Z.eqb z 0)
  | Some (VStr s) => negb (String.eqb s "")
  end.

(** [a == b]; an integer never equals a string, nor [None]. *)
Definition value_eqb (a b : value) : bool :=
  match a, b with
  | VInt x, VInt y => Z.eqb x y
  | VStr x, VStr y => String.eqb x y
  | _, _ => false
  end.

Definition py_eq (a : option value) (b : value) : bool :=
  match a with
  | Some v => value_eqb v b
  | None => false
  end.

(** [repr(s)] of a string: single quotes unless the text has a single quote
    and no double quote; backslash, the quote and the usual controls are
    escaped. *)
Definition repr_char (q c : ascii) : string :=
  if Ascii.eqb c backslash then String backslash (str1 backslash)
  else if Ascii.eqb c q then String backslash (str1 q)
  else if Ascii.eqb c TAB then String backslash "t"
  else if Ascii.eqb c LF then String backslash "n"
  else if Ascii.eqb c CR then String backslash "r"
  else str1 c.

Fixpoint repr_chars (q : ascii) (s : string) : string :=
  match s with
  | "" => ""
  | String c r => repr_char q c ++ repr_chars q r
  end.

Definition repr_str (s : string) : string :=
  let q := if mem squote s && negb (mem dquote s) then dquote else squote in
  String q (repr_chars q s ++ str1 q).

Definition exn_class (e : exn) : string :=
  match e with
  | ExpatError _ => "ExpatError"
  | ValueError _ => "ValueError"
  | AttributeError _ => "AttributeError"
  | NameError _ => "NameError"
  | TypeError _ => "TypeError"
  | IOError _ => "IOError"
  | OmqException _ => "OmqException"
  | OmqServerException _ => "OmqServerException"
  end.

Definition exn_arg (e : exn) : string :=
  match e with
  | ExpatError m | ValueError m | AttributeError m | NameError m
  | TypeError m | IOError m | OmqException m | OmqServerException m => m
  end.

(** [repr(e)] of an exception built from one string argument. *)
Definition repr_exn (e : exn) : string :=
  exn_class e ++ "(" ++ repr_str (exn_arg e) ++ ",)".

(** [int(s)] for a text [s], base 10: blanks around the numeral are
    ignored, one sign is allowed, at least one digit is required. *)
Definition digits_value (ds : string) : option Z :=
  match ds with
  | "" => None
  | _ => option_map Z.of_uint (DecimalString.NilEmpty.uint_of_string ds)
  end.

Definition invalid_literal (s : string) : exn :=
  ValueError ("invalid literal for int() with base 10: " ++ repr_str s).

Definition py_int (s : string) : exc Z :=
  let t := strip whitespace s in
  let '(neg, ds) :=
    match t with
    | String c r =>
        if Ascii.eqb c "-" then (true, r)
        else if Ascii.eqb c "+" then (false, r)
        else (false, t)
    | "" => (false, t)
    end in
  match digits_value ds with
  | Some n => Ok (if (neg : bool) then (- n)%Z else n)
  | None => Raise (invalid_literal s)
  end.

(** ** xml.sax.saxutils *)

(** [escape(data)]: ampersand first, then [>] and [<]. *)
Definition escape (data : string) : string :=
  let data := replace "&" "&amp;" data in
  let data := replace ">" "&gt;" data in
  let data := replace "<" "&lt;" data in
  data.

(** [unescape(data)]: [&lt;] and [&gt;] first, the ampersand last. *)
Definition unescape (data : string) : string :=
  let data := replace "&lt;" "<" data in
  let data := replace "&gt;" ">" data in
  replace "&amp;" "&" data.

(** ** xml.dom.minidom: the document tree *)

(** The nodes a parsed or built document is made of.  Every kind but
    [Element] carries character data in a [data] attribute. *)
#[warnings="-register-all"]
Inductive node : Type :=
| Element (tagName : string) (attributes : list (string * string))
          (childNodes : list node)
| Text (data : string)
| CDATASection (data : string)
| Comment (data : string)
| ProcessingInstruction (target data : string).

Record Document : Type := mkDocument { doc_childNodes : list node }.

Definition childNodes_of (n : node) : list node :=
  match n with
  | Element _ _ cs => cs
  | _ => []
  end.

Definition attributes_of (n : node) : list (string * string) :=
  match n with
  | Element _ attrs _ => attrs
  | _ => []
  end.

(** [node.firstChild]: the first child, [None] on a childless node. *)
Definition firstChild (n : node) : option node := hd_error (childNodes_of n).

(** [node.data]: an [Element] has no such attribute. *)
Definition node_data (n : node) : exc string :=
  match n with
  | Element _ _ _ =>
      Raise (AttributeError "Element instance has no attribute 'data'")
  | Text d | CDATASection d | Comment d | ProcessingInstruction _ d => Ok d
  end.

(** [x.data] where [x] is [node.firstChild], possibly [None]. *)
Definition firstChild_data (n : node) : exc string :=
  match firstChild n with
  | None => Raise (AttributeError "'NoneType' object has no attribute 'data'")
  | Some c => node_data c
  end.

Fixpoint lookup_attr (name : string) (attrs : list (string * string)) : option string :=
  match attrs with
  | [] => None
  | (k, v) :: r => if String.eqb k name then Some v else lookup_attr name r
  end.

Definition hasAttribute (n : node) (name : string) : bool :=
  match lookup_attr name (attributes_of n) with
  | Some _ => true
  | None => false
  end.

(** [getAttribute] answers the empty string for a missing attribute. *)
Definition getAttribute (n : node) (name : string) : string :=
  match lookup_attr name (attributes_of n) with
  | Some v => v
  | None => ""
  end.

(** [_get_elements_by_tagName_helper]: the elements named [name] ([*]
    matches every element) among a node and its descendants, in document
    order. *)
Fixpoint elements_by_tagName (name : string) (n : node) : list node :=
  match n with
  | Element t _ cs =>
      (if String.eqb name "*" || String.eqb t name then [n] else [])
        ++ flat_map (elements_by_tagName name) cs
  | _ => []
  end.

Definition getElementsByTagName (doc : Document) (name : string) : list node :=
  flat_map (elements_by_tagName name) (doc_childNodes doc).

(** [l.pop()] on a non-empty list takes its last item; only the item is
    used by the callers. *)
Fixpoint pop {A : Type} (l : list A) : option A :=
  match l with
  | [] => None
  | [x] => Some x
  | _ :: r => pop r
  end.

(** Building a tree: [createElement], [setAttribute], [createTextNode],
    [appendChild].  The module appends to elements and to the empty
    document only. *)
Definition createElement (tag_name : string) : node := Element tag_name [] [].

Definition createTextNode (data : string) : node := Text data.

Fixpoint set_attr (name v : string) (attrs : list (string * string)) :=
  match attrs with
  | [] => [(name, v)]
  | (k, w) :: r => if String.eqb k name then (k, v) :: r else (k, w) :: set_attr name v r
  end.

Definition setAttribute (n : node) (name v : string) : node :=
  match n with
  | Element t attrs cs => Element t (set_attr name v attrs) cs
  | _ => n
  end.

Definition appendChild (parent child : node) : node :=
  match parent with
  | Element t attrs cs => Element t attrs (cs ++ [child])
  | _ => parent
  end.

Definition new_Document : Document := mkDocument [].

Definition doc_appendChild (doc : Document) (child : node) : Document :=
  mkDocument (doc_childNodes doc ++ [child]).

(** ** xml.dom.minidom: writing a document *)

(** [_write_data]: character data and attribute values on output. *)
Definition write_data (data : string) : string :=
  replace ">" "&gt;"
    (replace (str1 dquote) "&quot;"
       (replace "<" "&lt;" (replace "&" "&amp;" data))).

Fixpoint insert_attr (a : string * string) (l : list (string * string)) :=
  match l with
  | [] => [a]
  | b :: r => if String.leb (fst a) (fst b) then a :: l else b :: insert_attr a r
  end.

(** Attributes are written in the order of their names. *)
Definition sort_attrs (l : list (string * string)) : list (string * string) :=
  fold_right insert_attr [] l.

Definition write_attr (a : string * string) : string :=
  " " ++ fst a ++ "=" ++ str1 dquote ++ write_data (snd a) ++ str1 dquote.

Definition concat_str (l : list string) : string := fold_right String.append "" l.

(** [node.writexml] without indentation.  The tree built by the module
    holds elements and text only; the other kinds are written in their
    plain form. *)
Fixpoint writexml (n : node) : string :=
  match n with
  | Element t attrs cs =>
      "<" ++ t ++ concat_str (map write_attr (sort_attrs attrs)) ++
      match cs with
      | [] => "/>"
      | _ => ">" ++ concat_str (map writexml cs) ++ "</" ++ t ++ ">"
      end
  | Text d => write_data d
  | CDATASection d => "<![CDATA[" ++ d ++ "]]>"
  | Comment d => "<!--" ++ d ++ "-->"
  | ProcessingInstruction t d => "<?" ++ t ++ " " ++ d ++ "?>"
  end.

Definition xml_declaration (encoding : string) : string :=
  "<?xml version=" ++ str1 dquote ++ "1.0" ++ str1 dquote ++
  " encoding=" ++ str1 dquote ++ encoding ++ str1 dquote ++ "?>".

(** [doc.toxml(encoding)] *)
Definition toxml (doc : Document) (encoding : string) : string :=
  xml_declaration encoding ++ concat_str (map writexml (doc_childNodes doc)).

(** [minidom.parseString]: a byte string to a document, or an error. *)
Definition xml_parser : Type := string -> exc Document.

(** ** XmlHelper (lines 116-178) *)

Module XmlHelper.

Definition str_as_bool (str_val : string) : Z :=
  if String.eqb (lower str_val) "true" then 1%Z else 0%Z.

Definition bool_as_str (bool_val : option value) : string :=
  if truthy bool_val then "true" else "false".

(** The function mutates [root_tag]; the updated element is returned. *)
Definition add_tag_with_value (root_tag : node) (tag_name : string)
    (tag_value : option value) (type : option string) (escape_xml : bool) : node :=
  match tag_value with
  | None => root_tag
  | Some v =>
      let xml_tag := createElement tag_name in
      let xml_tag :=
        match type with
        | Some ty =>
            (* [if type:] is false for the empty string as it is for [None] *)
            if String.eqb ty "" then xml_tag else setAttribute xml_tag "type" ty
        | None => xml_tag
        end in
      let text_content := py_str v in
      let text_content := if escape_xml then escape text_content else text_content in
      let xml_tag_value := createTextNode text_content in
      let xml_tag := appendChild xml_tag xml_tag_value in
      appendChild root_tag xml_tag
  end.

(** The value read from the text [data] of element [tag], by its [type]
    attribute. *)
Definition typed_content (tag : node) (data : string) (unescape_xml : bool) : exc value :=
  if hasAttribute tag "type" then
    let type := getAttribute tag "type" in
    if String.eqb type "integer" then
      z <- py_int data ;; Ok (VInt z)
    else if String.eqb type "boolean" then
      Ok (VInt (str_as_bool data))
    else
      let inner_text := data in
      Ok (VStr (if unescape_xml then unescape inner_text else inner_text))
  else
    let inner_text := data in
    Ok (VStr (if unescape_xml then unescape inner_text else inner_text)).

(** [len(tags) > 0] and [tags.pop()] are the match on [pop tags]; a node is
    always true, so [if text_node:] tests the first child for [None]; then
    [text_node.data] is read, whatever the kind of the node. *)
Definition get_tag_content (doc : Document) (tag_name : string)
    (unescape_xml : bool) : exc (option value) :=
  let tags := getElementsByTagName doc tag_name in
  match pop tags with
  | Some tag =>
      match firstChild tag with
      | Some text_node =>
          data <- node_data text_node ;;
          if (0 <? String.length data)%nat then
            inner_text <- typed_content tag data unescape_xml ;;
            Ok (Some inner_text)
          else Ok None
      | None => Ok None
      end
  | None => Ok None
  end.

End XmlHelper.

(** ** OmqServerException (lines 99-113) *)

(** [OmqServerException(xml)]: the constructor parses the error document;
    it returns the exception object, carrying [error], or itself raises. *)
Definition OmqServerException_init (parseString : xml_parser) (xml : string) : exc exn :=
  doc <- parseString xml ;;
  let error_tags := getElementsByTagName doc "error" in
  match pop error_tags with
  | Some tag =>
      error <- firstChild_data tag ;;
      Ok (OmqServerException error)
  | None => Ok (OmqServerException "Unknown server error")
  end.

(** ** OmqMessage (lines 181-251) *)

Module OmqMessage.

Definition ENC_UTF8 : value := VInt 1.
Definition ENC_CDATA : value := VInt 2.
Definition ENC_XML_ESCAPED : value := VInt 3.
Definition ENC_BASE64 : value := VInt 4.

Definition BODY_TYPE_XML : value := VInt 1.
Definition BODY_TYPE_YAML : value := VInt 2.
Definition BODY_TYPE_JSON : value := VInt 3.
Definition BODY_TYPE_SDL : value := VInt 4.
Definition BODY_TYPE_CSV : value := VInt 5.
Definition BODY_TYPE_OTHER : value := VInt 6.

Record t : Type := mk {
  body : option value;
  encoding : option value;
  priority : option value;
  body_type : option value;
  description : option value;
  sender : option value;
  queue_id : option value;
  id : option value
}.

(** [OmqMessage(body, encoding, body_type, priority, description, sender,
    queue_id, mid)]: a false [encoding] becomes [ENC_UTF8]. *)
Definition init (body encoding body_type priority description sender queue_id mid
                 : option value) : t :=
  {| body := body;
     encoding := if truthy encoding then encoding else Some ENC_UTF8;
     priority := priority;
     body_type := body_type;
     description := description;
     sender := sender;
     queue_id := queue_id;
     id := mid |}.

(** [self.encoding == ENC_UTF8 or self.encoding == ENC_XML_ESCAPED] *)
Definition escaped_encoding (enc : option value) : bool :=
  py_eq enc ENC_UTF8 || py_eq enc ENC_XML_ESCAPED.

(** The tree [get_message_as_xml] builds before writing it out. *)
Definition message_document (self : t) : Document :=
  let xml := new_Document in
  let msg_root := createElement "message" in
  let msg_root := XmlHelper.add_tag_with_value msg_root "body_encoding_id" (encoding self) None true in
  let msg_root := XmlHelper.add_tag_with_value msg_root "priority" (priority self) None true in
  let msg_root := XmlHelper.add_tag_with_value msg_root "body_type_id" (body_type self) None true in
  let msg_root := XmlHelper.add_tag_with_value msg_root "description" (description self) None true in
  let msg_root :=
    if escaped_encoding (encoding self)
    then XmlHelper.add_tag_with_value msg_root "body" (body self) None true
    else XmlHelper.add_tag_with_value msg_root "body" (body self) None false in
  doc_appendChild xml msg_root.

Definition get_message_as_xml (self : t) : string :=
  toxml (message_document self) "UTF-8".

(** Line 243 reads [self.encoding], but [from_xml] is a plain function of
    [xml_str]: no [self] is bound there (nor at module level), so evaluating
    the name raises. *)
Definition unbound_self : exc t :=
  Raise (NameError "global name 'self' is not defined").

(** The body of the [try] block of [from_xml]. *)
Definition from_xml_body (parseString : xml_parser) (xml_str : string) : exc t :=
  doc <- parseString xml_str ;;
  encoding <- XmlHelper.get_tag_content doc "body_encoding_id" true ;;
  priority <- XmlHelper.get_tag_content doc "priority" true ;;
  mtype <- XmlHelper.get_tag_content doc "body_type_id" true ;;
  desc <- XmlHelper.get_tag_content doc "description" true ;;
  sender <- XmlHelper.get_tag_content doc "sender" true ;;
  qid <- XmlHelper.get_tag_content doc "queue_id" true ;;
  mid <- XmlHelper.get_tag_content doc "id" true ;;
  cond <- (if py_eq encoding ENC_UTF8 then Ok true
           else self <- unbound_self ;;
                Ok (py_eq (OmqMessage.encoding self) ENC_XML_ESCAPED)) ;;
  body <- (if (cond : bool)
           then XmlHelper.get_tag_content doc "body" true
           else XmlHelper.get_tag_content doc "body" false) ;;
  Ok (init body encoding mtype priority desc sender qid mid).

(** [from_xml]: any exception of the body is caught and [None] returned. *)
Definition from_xml (parseString : xml_parser) (xml_str : string) : exc (option t) :=
  try_except
    (m <- from_xml_body parseString xml_str ;; Ok (Some m))
    (fun _ => Ok None).

End OmqMessage.

(** ** OmqQueue (lines 254-307) *)

Module OmqQueue.

Record t : Type := mk {
  id : option value;
  name : option value;
  queue_manager_id : option value;
  max_depth : option value;
  max_msg_length : option value;
  send_enabled : option value;
  receive_enabled : option value;
  description : option value;
  depth : option value;
  visibility_timeout : option value
}.

(** [OmqQueue(name, queue_manager_id, max_depth, max_msg_length,
    send_enabled, receive_enabled, description, qid, depth,
    visibility_timeout)] *)
Definition init (name queue_manager_id max_depth max_msg_length send_enabled
                 receive_enabled description qid depth visibility_timeout
                 : option value) : t :=
  {| id := qid;
     name := name;
     queue_manager_id := queue_manager_id;
     max_depth := max_depth;
     max_msg_length := max_msg_length;
     send_enabled := send_enabled;
     receive_enabled := receive_enabled;
     description := description;
     depth := depth;
     visibility_timeout := visibility_timeout |}.

(** The tree [get_queue_as_xml] builds before writing it out (lines
    272-287); [escape_xml] keeps its default. *)
Definition queue_document (self : t) : Document :=
  let xml := new_Document in
  let msg_root := createElement "queue" in
  let msg_root := XmlHelper.add_tag_with_value msg_root "description" (description self) None true in
  let msg_root := XmlHelper.add_tag_with_value msg_root "id" (id self) (Some "integer") true in
  let msg_root := XmlHelper.add_tag_with_value msg_root "max_depth" (max_depth self) (Some "integer") true in
  let msg_root := XmlHelper.add_tag_with_value msg_root "max_message_length" (max_msg_length self) (Some "integer") true in
  let msg_root := XmlHelper.add_tag_with_value msg_root "name" (name self) None true in
  let msg_root := XmlHelper.add_tag_with_value msg_root "queue_manager_id" (queue_manager_id self) (Some "integer") true in
  let msg_root := XmlHelper.add_tag_with_value msg_root "receive_enabled"
                    (Some (VStr (XmlHelper.bool_as_str (receive_enabled self)))) (Some "boolean") true in
  let msg_root := XmlHelper.add_tag_with_value msg_root "send_enabled" (send_enabled self) None true in
  let msg_root := XmlHelper.add_tag_with_value msg_root "visibility_timeout" (visibility_timeout self) None true in
  doc_appendChild xml msg_root.

Definition get_queue_as_xml (self : t) : string :=
  toxml (queue_document self) "UTF-8".

(** The body of the [try] block of [from_xml]. *)
Definition from_xml_body (parseString : xml_parser) (xml_str : string) : exc t :=
  doc <- parseString xml_str ;;
  desc <- XmlHelper.get_tag_content doc "description" true ;;
  qid <- XmlHelper.get_tag_content doc "id" true ;;
  mdepth <- XmlHelper.get_tag_content doc "max_depth" true ;;
  mlength <- XmlHelper.get_tag_content doc "max_message_length" true ;;
  name <- XmlHelper.get_tag_content doc "name" true ;;
  qmgrid <- XmlHelper.get_tag_content doc "queue_manager_id" true ;;
  recenabled <- XmlHelper.get_tag_content doc "receive_enabled" true ;;
  send_enabled <- XmlHelper.get_tag_content doc "send_enabled" true ;;
  visibility <- XmlHelper.get_tag_content doc "visibility_timeout" true ;;
  depth <- XmlHelper.get_tag_content doc "depth" true ;;
  Ok (init name qmgrid mdepth mlength send_enabled recenabled desc qid depth visibility).

(** [from_xml]: [except Exception, e: raise OmqException(repr(e))]. *)
Definition from_xml (parseString : xml_parser) (xml_str : string) : exc t :=
  try_except
    (from_xml_body parseString xml_str)
    (fun e => Raise (OmqException (repr_exn e))).

End OmqQueue.

(** ** httplib: one HTTPS exchange *)

Record request : Type := mkRequest {
  req_method : string;
  req_path : string;
  req_body : option string;
  req_headers : list (string * string)
}.

Record response : Type := mkResponse {
  status : Z;
  getheader : string -> option string;
  read : string
}.

(** [HTTPSConnection(host).request(...)] followed by [getresponse()]: the
    server's answer to a request, or a transport failure. *)
Definition transport : Type := request -> exc response.

(** ** OmqConnection (lines 310-454) *)

Module OmqConnection.

Definition HTTPS_ADDR : string := "mq.onlinemq.com".
Definition CONTENT_TYPE : string := "application/xml".
Definition ACCEPTS : string := "application/xml".
Definition URL_POSTFIX : string := ".xml".
Definition REST_VERSION : string := "1.0".

Record t : Type := mk {
  user : string;
  password : string;
  credentials : string
}.

(** [get_basic_auth]; [b64encode] is the base64 codec of the standard
    library. *)
Definition get_basic_auth (b64encode : string -> string) (user password : string) : string :=
  let basic_string := user ++ ":" ++ password in
  let based_string := b64encode basic_string in
  let credentials := strip (str1 LF) based_string in
  "Basic " ++ credentials.

Definition init (b64encode : string -> string) (user password : string) : t :=
  {| user := user;
     password := password;
     credentials := get_basic_auth b64encode user password |}.

Definition _append_postfix (path : string) : string := path ++ URL_POSTFIX.

(** [_request]: the headers of every request, and the request itself. *)
Definition _request (self : t) (path method : string) (body : option string) : request :=
  let headers :=
    [("Content-Type", CONTENT_TYPE);
     ("Accept", ACCEPTS);
     ("Authorization", credentials self);
     ("X-Rest-Interface-Version", REST_VERSION)] in
  mkRequest method path body headers.

(** [_handle_error]: reads the body and raises the server's error; the
    constructor of the exception may itself raise. *)
Definition _handle_error {A : Type} (parseString : xml_parser) (resp : response) : exc A :=
  let data := read resp in
  e <- OmqServerException_init parseString data ;;
  Raise e.

Definition open_transaction_request (self : t) : request :=
  let base_path := "/transactions" in
  let path := _append_postfix base_path in
  let method := "POST" in
  _request self path method None.

Definition open_transaction (parseString : xml_parser) (send : transport) (self : t)
    : exc (option Z) :=
  let base_path := "/transactions" in
  resp <- send (open_transaction_request self) ;;
  if (status resp <? 400)%Z then
    match getheader resp "location" with
    | Some location =>
        let full_url := "https://" ++ HTTPS_ADDR ++ "/" ++ base_path ++ "/" in
        transaction_id <- py_int (strip full_url location) ;;
        Ok (Some transaction_id)
    | None => Ok None
    end
  else _handle_error parseString resp.

Definition _transaction_action (parseString : xml_parser) (send : transport) (self : t)
    (transaction_id : Z) (action : string) : exc unit :=
  let base_path := "/transactions/" ++ str_of_Z transaction_id ++ "/" ++ action in
  let path := _append_postfix base_path in
  let method := "POST" in
  resp <- send (_request self path method None) ;;
  if (status resp =? 200)%Z then Ok tt
  else _handle_error parseString resp.

(** The request [_transaction_action] sends. *)
Definition transaction_action_request (self : t) (transaction_id : Z) (action : string)
    : request :=
  let base_path := "/transactions/" ++ str_of_Z transaction_id ++ "/" ++ action in
  let path := _append_postfix base_path in
  let method := "POST" in
  _request self path method None.

Definition commit parseString send self (transaction_id : Z) : exc unit :=
  _transaction_action parseString send self transaction_id "commit".

Definition rollback parseString send self (transaction_id : Z) : exc unit :=
  _transaction_action parseString send self transaction_id "rollback".

(** [if transaction_id:] on an optional integer: [None] and [0] are false. *)
Definition transaction_given (transaction_id : option Z) : bool :=
  truthy (option_map VInt transaction_id).

Definition with_transaction (path : string) (transaction_id : option Z) : string :=
  match transaction_id with
  | Some n =>
      if transaction_given transaction_id
      then path ++ "?transaction_id=" ++ str_of_Z n
      else path
  | None => path
  end.

Definition send_message_request (self : t) (queue_id : Z) (msg : OmqMessage.t)
    (transaction_id : option Z) : request :=
  let base_path := "/queues/" ++ str_of_Z queue_id ++ "/messages" in
  let path := _append_postfix base_path in
  let path := with_transaction path transaction_id in
  _request self path "POST" (Some (OmqMessage.get_message_as_xml msg)).

Definition send_message (parseString : xml_parser) (send : transport) (self : t)
    (queue_id : Z) (msg : OmqMessage.t) (transaction_id : option Z) : exc unit :=
  resp <- send (send_message_request self queue_id msg transaction_id) ;;
  if (status resp =? 201)%Z then Ok tt
  else _handle_error parseString resp.

(** Lines 418-423: the path with the postfix is computed, then replaced by
    [base_path] before the transaction parameter is added. *)
Definition receive_message_request (self : t) (queue_id : Z)
    (transaction_id : option Z) : request :=
  let base_path := "/queues/" ++ str_of_Z queue_id ++ "/messages/receive" in
  let path := _append_postfix base_path in
  let path := base_path in
  let path := with_transaction path transaction_id in
  _request self path "POST" None.

Definition receive_message (parseString : xml_parser) (send : transport) (self : t)
    (queue_id : Z) (transaction_id : option Z) : exc (option OmqMessage.t) :=
  resp <- send (receive_message_request self queue_id transaction_id) ;;
  if (status resp <? 400)%Z then
    let data := read resp in
    OmqMessage.from_xml parseString data
  else _handle_error parseString resp.

Definition get_queue_request (self : t) (queue_id : Z) : request :=
  let base_path := "/queues/" ++ str_of_Z queue_id in
  let path := _append_postfix base_path in
  _request self path "GET" None.

Definition get_queue (parseString : xml_parser) (send : transport) (self : t)
    (queue_id : Z) : exc OmqQueue.t :=
  resp <- send (get_queue_request self queue_id) ;;
  if (status resp <? 400)%Z then
    let data := read resp in
    OmqQueue.from_xml parseString data
  else _handle_error parseString resp.

Definition get_queue_depth (parseString : xml_parser) (send : transport) (self : t)
    (queue_id : Z) : exc (option value) :=
  try_except
    (queue <- get_queue parseString send self queue_id ;; Ok (OmqQueue.depth queue))
    (fun _ => Ok None).

End OmqConnection.

(** ** A reference parser

    The functions above take [minidom.parseString] as a parameter.  To run
    them on concrete wire documents this section gives a parser for the
    fragment of XML the service speaks: ASCII documents without a document
    type declaration, with elements, attributes, text, the five predefined
    entity references, comments, CDATA sections and processing instructions.
    It builds the tree the way minidom's expat builder does: adjacent
    character data is merged into one [Text] node, CDATA sections are kept
    as nodes of their own, white space outside the root element is dropped.
    Input outside the fragment is refused with [ExpatError]. *)

Module Expat.

Definition not_well_formed : exn := ExpatError "not well-formed (invalid token)".
Definition unsupported : exn := ExpatError "outside the supported fragment".

Definition is_space (c : ascii) : bool :=
  Ascii.eqb c " " || Ascii.eqb c TAB || Ascii.eqb c LF || Ascii.eqb c CR.

Definition is_letter (c : ascii) : bool :=
  let n := nat_of_ascii c in
  ((65 <=? n) && (n <=? 90) || (97 <=? n) && (n <=? 122))%nat.

Definition is_name_start (c : ascii) : bool :=
  is_letter c || Ascii.eqb c "_" || Ascii.eqb c ":".

Definition is_name_char (c : ascii) : bool :=
  is_name_start c || is_digit c || Ascii.eqb c "-" || Ascii.eqb c ".".

(** A character allowed in character data. *)
Definition is_char (c : ascii) : bool :=
  let n := nat_of_ascii c in
  Ascii.eqb c TAB || Ascii.eqb c LF || ((32 <=? n) && (n <? 128))%nat.

Fixpoint skip_space (s : string) : string :=
  match s with
  | String c r => if is_space c then skip_space r else s
  | "" => ""
  end.

Fixpoint take_while (p : ascii -> bool) (s : string) : string * string :=
  match s with
  | String c r =>
      if p c then let (a, b) := take_while p r in (String c a, b) else ("", s)
  | "" => ("", "")
  end.

(** A name, possibly empty, and what follows it. *)
Definition take_name (s : string) : string * string :=
  match s with
  | String c _ => if is_name_start c then take_while is_name_char s else ("", s)
  | "" => ("", "")
  end.

Fixpoint drop (n : nat) (s : string) : string :=
  match n, s with
  | S k, String _ r => drop k r
  | _, _ => s
  end.

(** The text before the first occurrence of [pat], and the text after it. *)
Fixpoint split_at (pat s : string) : option (string * string) :=
  if String.prefix pat s then Some ("", drop (String.length pat) s)
  else match s with
       | "" => None
       | String c r =>
           match split_at pat r with
           | Some (a, b) => Some (String c a, b)
           | None => None
           end
       end.

(** End-of-line handling: CR LF and a lone CR are read as LF. *)
Fixpoint normalize_newlines (s : string) : string :=
  match s with
  | "" => ""
  | String c r =>
      if Ascii.eqb c CR then
        match r with
        | String d _ => if Ascii.eqb d LF then normalize_newlines r
                        else String LF (normalize_newlines r)
        | "" => str1 LF
        end
      else String c (normalize_newlines r)
  end.

(** An entity reference, after its ampersand. *)
Definition parse_reference (s : string) : exc (ascii * string) :=
  if String.prefix "lt;" s then Ok ("<"%char, drop 3 s)
  else if String.prefix "gt;" s then Ok (">"%char, drop 3 s)
  else if String.prefix "amp;" s then Ok ("&"%char, drop 4 s)
  else if String.prefix "quot;" s then Ok (dquote, drop 5 s)
  else if String.prefix "apos;" s then Ok (squote, drop 5 s)
  else if String.prefix "#" s then Raise unsupported
  else Raise (ExpatError "undefined entity").

Fixpoint parse_attr_value (fuel : nat) (q : ascii) (s acc : string) : exc (string * string) :=
  match fuel with
  | O => Raise unsupported
  | S f =>
      match s with
      | "" => Raise (ExpatError "unclosed token")
      | String c r =>
          if Ascii.eqb c q then Ok (acc, r)
          else if Ascii.eqb c "<" then Raise not_well_formed
          else if Ascii.eqb c "&" then
            cr <- parse_reference r ;;
            parse_attr_value f q (snd cr) (acc ++ str1 (fst cr))
          else if is_char c then
            parse_attr_value f q r (acc ++ str1 (if is_space c then " "%char else c))
          else Raise not_well_formed
      end
  end.

(** The attributes of a start tag, whether the tag closes itself, and what
    follows the tag. *)
Fixpoint parse_attributes (fuel : nat) (s : string) (acc : list (string * string))
    : exc (list (string * string) * bool * string) :=
  match fuel with
  | O => Raise unsupported
  | S f =>
      let s' := skip_space s in
      match s' with
      | String ">" r => Ok (List.rev acc, false, r)
      | String "/" (String ">" r) => Ok (List.rev acc, true, r)
      | _ =>
          if (String.length s' <? String.length s)%nat then
            let (name, r1) := take_name s' in
            if String.eqb name "" then Raise not_well_formed
            else match skip_space r1 with
                 | String "=" r2 =>
                     match skip_space r2 with
                     | String q r3 =>
                         if Ascii.eqb q dquote || Ascii.eqb q squote then
                           vr <- parse_attr_value f q r3 "" ;;
                           match lookup_attr name acc with
                           | Some _ => Raise (ExpatError "duplicate attribute")
                           | None => parse_attributes f (snd vr) ((name, fst vr) :: acc)
                           end
                         else Raise not_well_formed
                     | "" => Raise (ExpatError "unclosed token")
                     end
                 | _ => Raise not_well_formed
                 end
          else Raise not_well_formed
      end
  end.

(** Character data joins the [Text] node it follows. *)
Definition add_char (c : ascii) (acc : list node) : list node :=
  match acc with
  | Text d :: r => Text (d ++ str1 c) :: r
  | _ => Text (str1 c) :: acc
  end.

Definition parse_end_tag (name s : string) : exc string :=
  match s with
  | String "<" (String "/" r) =>
      let (n, r1) := take_name r in
      if String.eqb n name then
        match skip_space r1 with
        | String ">" r2 => Ok r2
        | _ => Raise not_well_formed
        end
      else Raise (ExpatError "mismatched tag")
  | _ => Raise (ExpatError "no element found")
  end.

(** The nodes up to the end of the input or to the next end tag, which is
    left for the caller; [acc] holds the nodes read so far, last first. *)
Fixpoint parse_nodes (fuel : nat) (s : string) (acc : list node) : exc (list node * string) :=
  match fuel with
  | O => Raise unsupported
  | S f =>
      match s with
      | "" => Ok (List.rev acc, "")
      | String c r =>
          if Ascii.eqb c "<" then
            if String.prefix "/" r then Ok (List.rev acc, s)
            else if String.prefix "!--" r then
              match split_at "--" (drop 3 r) with
              | Some (d, String ">" r') =>
                  if all_chars is_char d then parse_nodes f r' (Comment d :: acc)
                  else Raise not_well_formed
              | Some _ => Raise not_well_formed
              | None => Raise (ExpatError "unclosed token")
              end
            else if String.prefix "![CDATA[" r then
              match split_at "]]>" (drop 8 r) with
              | Some (d, r') =>
                  if all_chars is_char d then
                    parse_nodes f r' (if String.eqb d "" then acc else CDATASection d :: acc)
                  else Raise not_well_formed
              | None => Raise (ExpatError "unclosed CDATA section")
              end
            else if String.prefix "!" r then Raise unsupported
            else if String.prefix "?" r then
              let (target, r1) := take_name (drop 1 r) in
              if String.eqb target "" then Raise not_well_formed
              else if String.eqb (lower target) "xml" then
                Raise (ExpatError "XML or text declaration not at start of entity")
              else match split_at "?>" (skip_space r1) with
                   | Some (d, r') =>
                       if all_chars is_char d
                       then parse_nodes f r' (ProcessingInstruction target d :: acc)
                       else Raise not_well_formed
                   | None => Raise (ExpatError "unclosed token")
                   end
            else
              let (name, r1) := take_name r in
              if String.eqb name "" then Raise not_well_formed
              else
                ar <- parse_attributes (S (String.length r1)) r1 [] ;;
                let '(attrs, closed, r2) := ar in
                if (closed : bool) then parse_nodes f r2 (Element name attrs [] :: acc)
                else
                  kr <- parse_nodes f r2 [] ;;
                  r3 <- parse_end_tag name (snd kr) ;;
                  parse_nodes f r3 (Element name attrs (fst kr) :: acc)
          else if Ascii.eqb c "&" then
            cr <- parse_reference r ;;
            parse_nodes f (snd cr) (add_char (fst cr) acc)
          else if String.prefix "]]>" s then Raise not_well_formed
          else if is_char c then parse_nodes f r (add_char c acc)
          else Raise not_well_formed
      end
  end.

Definition is_element (n : node) : bool :=
  match n with
  | Element _ _ _ => true
  | _ => false
  end.

(** The children of the document: white space between them is dropped,
    other character data is refused. *)
Fixpoint document_nodes (l : list node) : exc (list node) :=
  match l with
  | [] => Ok []
  | Text d :: r =>
      if all_chars is_space d then document_nodes r else Raise not_well_formed
  | CDATASection _ :: _ => Raise not_well_formed
  | n :: r => ns <- document_nodes r ;; Ok (n :: ns)
  end.

(** The declaration [<?xml ... ?>] in front of a document. *)
Definition skip_declaration (s : string) : exc string :=
  if String.prefix "<?xml" s && negb (String.prefix "<?xml-" s) then
    match split_at "?>" s with
    | Some (_, r) => Ok r
    | None => Raise (ExpatError "unclosed token")
    end
  else Ok s.

Definition parseString (xml : string) : exc Document :=
  s <- skip_declaration (normalize_newlines xml) ;;
  nr <- parse_nodes (S (String.length s)) s [] ;;
  match snd nr with
  | "" =>
      ns <- document_nodes (fst nr) ;;
      match List.length (filter is_element ns) with
      | 1%nat => Ok (mkDocument ns)
      | O => Raise (ExpatError "no element found")
      | _ => Raise (ExpatError "junk after document element")
      end
  | _ => Raise not_well_formed
  end.

End Expat.


(** ** Vocabulary of the statements *)

(** Membership of a character in the set [strip] is given. *)
Definition inside (chars : string) (c : ascii) : bool := mem c chars.
Definition outside (chars : string) (c : ascii) : bool := negb (mem c chars).

(** A sign or a digit: the characters of [str(n)]. *)
Definition is_numeral_char (c : ascii) : bool := is_digit c || Ascii.eqb c "-".

(** The characters [open_transaction] strips from the location header:
    those of ['https://%s/%s/' % (HTTPS_ADDR, base_path)]. *)
Definition location_chars : string :=
  "https://" ++ OmqConnection.HTTPS_ADDR ++ "/" ++ "/transactions" ++ "/".

(** The path the interface description gives for [receive_message]:
    [/queues/{queueId}/messages/receive.xml], then [?transaction_id={id}]
    when a transaction is supplied. *)
Definition claimed_receive_path (queue_id : Z) (transaction_id : option Z) : string :=
  "/queues/" ++ str_of_Z queue_id ++ "/messages/receive.xml" ++
  match transaction_id with
  | Some n => "?transaction_id=" ++ str_of_Z n
  | None => ""
  end.

(** The reading of a typed field, as the wire format defines it: an integer
    for [type="integer"], 1 or 0 for [type="boolean"], the text itself for any
    other or no type. *)
Definition typed_value (type : option string) (data : string) (unescape_xml : bool)
    : exc value :=
  match type with
  | Some ty =>
      if String.eqb ty "integer" then z <- py_int data ;; Ok (VInt z)
      else if String.eqb ty "boolean" then
        Ok (VInt (if String.eqb (lower data) "true" then 1 else 0)%Z)
      else Ok (VStr (if unescape_xml then unescape data else data))
  | None => Ok (VStr (if unescape_xml then unescape data else data))
  end.

(** The child element a field contributes to the message: none for [None],
    otherwise an element without attributes around one text node. *)
Definition field_element (tag : string) (v : option value) (escaped : bool) : list node :=
  match v with
  | None => []
  | Some x => [Element tag [] [Text (if escaped then escape (py_str x) else py_str x)]]
  end.

Definition message_children (m : OmqMessage.t) : list node :=
  (field_element "body_encoding_id" (OmqMessage.encoding m) true ++
   field_element "priority" (OmqMessage.priority m) true ++
   field_element "body_type_id" (OmqMessage.body_type m) true ++
   field_element "description" (OmqMessage.description m) true ++
   field_element "body" (OmqMessage.body m)
     (OmqMessage.escaped_encoding (OmqMessage.encoding m)))%list.

(** [subst_chars f s]: every character [c] of [s] replaced by the text
    [f c]. *)
Fixpoint subst_chars (f : ascii -> string) (s : string) : string :=
  match s with
  | "" => ""
  | String c r => f c ++ subst_chars f r
  end.

(** The text [escape] writes for one character, and the stages it goes
    through: ampersand, then [>], then [<]. *)
Definition esc_amp (c : ascii) : string :=
  if Ascii.eqb c "&" then "&amp;" else str1 c.

Definition esc_amp_gt (c : ascii) : string :=
  if Ascii.eqb c "&" then "&amp;" else if Ascii.eqb c ">" then "&gt;" else str1 c.

Definition esc_char (c : ascii) : string :=
  if Ascii.eqb c "&" then "&amp;"
  else if Ascii.eqb c ">" then "&gt;"
  else if Ascii.eqb c "<" then "&lt;"
  else str1 c.

(** The last character of a text. *)
Fixpoint last_char (s : string) : option ascii :=
  match s with
  | "" => None
  | String c "" => Some c
  | String _ r => last_char r
  end.

(** The attributes [add_tag_with_value] sets for a [type] argument. *)
Definition type_attributes (type : option string) : list (string * string) :=
  match type with
  | Some ty => if String.eqb ty "" then [] else [("type", ty)]
  | None => []
  end.

(** The child element [add_tag_with_value] appends for a value. *)
Definition typed_field_element (tag : string) (v : option value) (type : option string)
    (escaped : bool) : list node :=
  match v with
  | None => []
  | Some x =>
      [Element tag (type_attributes type)
         [Text (if escaped then escape (py_str x) else py_str x)]]
  end.

(** What is read back of a field written untyped: its string form, and
    nothing for an empty one. *)
Definition as_text (v : option value) : option value :=
  match v with
  | Some x => if String.eqb (py_str x) "" then None else Some (VStr (py_str x))
  | None => None
  end.

(** A field that is [None] or an integer. *)
Definition int_field (v : option value) : Prop :=
  match v with
  | None | Some (VInt _) => True
  | Some (VStr _) => False
  end.

(** The truth value of an object as the integer a boolean field reads. *)
Definition truth_int (v : option value) : value :=
  VInt (if truthy v then 1 else 0).

(** The children of the root element of a serialised queue. *)
Definition queue_children (q : OmqQueue.t) : list node :=
  (typed_field_element "description" (OmqQueue.description q) None true ++
   typed_field_element "id" (OmqQueue.id q) (Some "integer") true ++
   typed_field_element "max_depth" (OmqQueue.max_depth q) (Some "integer") true ++
   typed_field_element "max_message_length" (OmqQueue.max_msg_length q) (Some "integer") true ++
   typed_field_element "name" (OmqQueue.name q) None true ++
   typed_field_element "queue_manager_id" (OmqQueue.queue_manager_id q) (Some "integer") true ++
   typed_field_element "receive_enabled"
     (Some (VStr (XmlHelper.bool_as_str (OmqQueue.receive_enabled q)))) (Some "boolean") true ++
   typed_field_element "send_enabled" (OmqQueue.send_enabled q) None true ++
   typed_field_element "visibility_timeout" (OmqQueue.visibility_timeout q) None true)%list.

(** A queue with markup characters in its texts. *)
Definition jobs_queue : OmqQueue.t :=
  OmqQueue.init (Some (VStr "jobs & tasks")) (Some (VInt 4)) (Some (VInt 100)) None
    (Some (VInt 1)) (Some (VInt 1)) (Some (VStr "a <test> queue")) (Some (VInt 30))
    (Some (VInt 5)) None.

(** ** Sample data *)

(** A transport that answers every request alike. *)
Definition reply (status : Z) (location : option string) (body : string) : transport :=
  fun _ =>
    Ok (mkResponse status
          (fun name => if String.eqb name "location" then location else None)
          body).


Definition some_connection : OmqConnection.t :=
  OmqConnection.mk "myuser@mail.com" "mypass" "Basic bXl1c2VyQG1haWwuY29tOm15cGFzcw==".

(** A transport that answers every request with status 201 and the header
    [location: /transactions/42/]. *)
Definition created_42 : transport :=
  fun _ =>
    Ok (mkResponse 201
          (fun name => if String.eqb name "location" then Some "/transactions/42/" else None)
          "").

(** A queue document with the [id] given twice, the second time as a typed
    integer. *)
Definition queue_two_ids : Document :=
  mkDocument
    [Element "queue" []
       [Element "id" [] [Text "7"];
        Element "id" [("type", "integer")] [Text "12"]]].

(** A queue document whose [id] element holds an element and no text. *)
Definition queue_nested_id : Document :=
  mkDocument [Element "queue" [] [Element "id" [] [Element "x" [] []]]].


(** A message as the module's docstring builds one. *)
Definition hello_message : OmqMessage.t :=
  OmqMessage.init (Some (VStr "this is the message body!")) (Some OmqMessage.ENC_UTF8)
    None None None None None None.

(** The attribute value ["integer"], with its quotes. *)
Definition q_integer : string := str1 dquote ++ "integer" ++ str1 dquote.

(** A UTF-8 message whose body holds [<], [&] and a double quote, and a
    CDATA message with the same body. *)
Definition markup_body : string := "a<b&c" ++ str1 dquote ++ "d".

Definition utf8_message : OmqMessage.t :=
  OmqMessage.init (Some (VStr markup_body)) (Some OmqMessage.ENC_UTF8)
    None None None None None None.

Definition cdata_message : OmqMessage.t :=
  OmqMessage.init (Some (VStr markup_body)) (Some OmqMessage.ENC_CDATA)
    None None None None None None.

(** * Properties *)

(** ** Strings: [strip] and [int] *)

Section Strip.

Variable chars : string.

Lemma lstrip_inside (p s : string) :
  all_chars (inside chars) p = true -> lstrip chars (p ++ s) = lstrip chars s.
Proof.
  induction p as [|c p IH]; simpl; intros H.
  - reflexivity.
  - apply andb_true_iff in H as [Hc Hp]. unfold inside in Hc.
    rewrite Hc. now apply IH.
Qed.

Lemma append_empty_r (s : string) : s ++ "" = s.
Proof.
  induction s as [|c s IH]; simpl; [reflexivity | now rewrite IH].
Qed.

Lemma lstrip_outside (c : ascii) (s : string) :
  outside chars c = true -> lstrip chars (String c s) = String c s.
Proof.
  unfold outside. intros H. simpl.
  now destruct (mem c chars).
Qed.

Lemma rstrip_all_inside (s : string) :
  all_chars (inside chars) s = true -> rstrip chars s = "".
Proof.
  induction s as [|c s IH]; simpl; intros H.
  - reflexivity.
  - apply andb_true_iff in H as [Hc Hs]. unfold inside in Hc.
    now rewrite (IH Hs), Hc.
Qed.

Lemma rstrip_inside (s t : string) :
  all_chars (inside chars) t = true -> rstrip chars (s ++ t) = rstrip chars s.
Proof.
  intros Ht. induction s as [|c s IH]; simpl.
  - now apply rstrip_all_inside.
  - now rewrite IH.
Qed.

Lemma rstrip_all_outside (s : string) :
  all_chars (outside chars) s = true -> rstrip chars s = s.
Proof.
  induction s as [|c s IH]; simpl; intros H.
  - reflexivity.
  - apply andb_true_iff in H as [Hc Hs]. unfold outside in Hc.
    rewrite (IH Hs). destruct s; [|reflexivity].
    now destruct (mem c chars).
Qed.

(** Stripping a text whose core has no character of [chars]. *)
Lemma strip_core (p c : string) (t : string) :
  all_chars (inside chars) p = true -> all_chars (inside chars) t = true ->
  all_chars (outside chars) c = true ->
  strip chars (p ++ c ++ t) = c.
Proof.
  intros Hp Ht Hc. unfold strip. rewrite lstrip_inside by assumption.
  destruct c as [|a c].
  - simpl. rewrite <- (append_empty_r t), lstrip_inside by assumption.
    reflexivity.
  - simpl in Hc. apply andb_true_iff in Hc as [Ha Hc'].
    change (String a c ++ t) with (String a (c ++ t)).
    rewrite lstrip_outside by assumption.
    change (String a (c ++ t)) with (String a c ++ t).
    rewrite rstrip_inside by assumption.
    apply rstrip_all_outside. simpl. now rewrite Ha, Hc'.
Qed.

End Strip.

Lemma strip_all_outside (chars s : string) :
  all_chars (outside chars) s = true -> strip chars s = s.
Proof.
  intros H. unfold strip. destruct s as [|c s].
  - reflexivity.
  - pose proof H as H'. simpl in H'. apply andb_true_iff in H' as [Hc _].
    rewrite lstrip_outside by assumption. now apply rstrip_all_outside.
Qed.

Lemma all_chars_impl (p p' : ascii -> bool) (s : string) :
  (forall c, p c = true -> p' c = true) ->
  all_chars p s = true -> all_chars p' s = true.
Proof.
  intros Hpp'. induction s as [|c s IH]; simpl; [reflexivity|].
  intros H. apply andb_true_iff in H as [Hc Hs].
  now rewrite (Hpp' c Hc), (IH Hs).
Qed.

(** ** Decimal numerals *)

Lemma uint_digits (d : Decimal.uint) :
  all_chars is_digit (DecimalString.NilEmpty.string_of_uint d) = true.
Proof.
  induction d; simpl; auto.
Qed.

Lemma uint_first_digit (d : Decimal.uint) :
  d <> Decimal.Nil ->
  exists c r, DecimalString.NilEmpty.string_of_uint d = String c r /\
              Ascii.eqb c "-" = false /\ Ascii.eqb c "+" = false.
Proof.
  destruct d; intros Hd; [contradiction | ..]; simpl; eauto.
Qed.

Lemma digits_value_uint (d : Decimal.uint) :
  d <> Decimal.Nil ->
  digits_value (DecimalString.NilEmpty.string_of_uint d) = Some (Z.of_uint d).
Proof.
  intros Hd. unfold digits_value.
  destruct (uint_first_digit d Hd) as (c & r & E & _).
  rewrite E, <- E, DecimalString.NilEmpty.usu. reflexivity.
Qed.

Lemma digit_not_space (c : ascii) :
  is_numeral_char c = true -> outside whitespace c = true.
Proof.
  destruct c as [[] [] [] [] [] [] [] []]; vm_compute; intros H;
    first [reflexivity | discriminate H].
Qed.

(** [int] reads back an unsigned numeral. *)
Lemma py_int_uint (d : Decimal.uint) :
  d <> Decimal.Nil ->
  py_int (DecimalString.NilEmpty.string_of_uint d) = Ok (Z.of_uint d).
Proof.
  intros Hd. unfold py_int.
  rewrite strip_all_outside.
  - destruct (uint_first_digit d Hd) as (c & r & E & Hm & Hp).
    rewrite E, Hm, Hp, <- E, digits_value_uint by assumption. reflexivity.
  - apply all_chars_impl with (p := is_digit); [|apply uint_digits].
    intros c Hc. apply digit_not_space. unfold is_numeral_char. now rewrite Hc.
Qed.

(** ... and a negative one. *)
Lemma py_int_neg_uint (d : Decimal.uint) :
  d <> Decimal.Nil ->
  py_int (String "-" (DecimalString.NilEmpty.string_of_uint d)) = Ok (- Z.of_uint d)%Z.
Proof.
  intros Hd. unfold py_int.
  rewrite strip_all_outside.
  - cbv beta iota. change (Ascii.eqb "-" "-") with true. cbv beta iota.
    rewrite digits_value_uint by assumption. reflexivity.
  - simpl. apply all_chars_impl with (p := is_digit); [|apply uint_digits].
    intros c Hc. apply digit_not_space. unfold is_numeral_char. now rewrite Hc.
Qed.

(** The numeral [str(n)] is a sign-and-digits text that [int] reads back. *)
Lemma str_of_Z_shape (n : Z) :
  exists d, d <> Decimal.Nil /\
    (str_of_Z n = DecimalString.NilEmpty.string_of_uint d /\ (0 <= n)%Z /\ Z.of_uint d = n \/
     str_of_Z n = String "-" (DecimalString.NilEmpty.string_of_uint d) /\ (n < 0)%Z /\
     (- Z.of_uint d)%Z = n).
Proof.
  pose proof (DecimalZ.of_to n) as Hn. unfold str_of_Z.
  destruct n as [|p|p]; simpl in *.
  - exists (Decimal.D0 Decimal.Nil). split; [discriminate|]. left.
    split; [reflexivity | split; [lia | reflexivity]].
  - exists (Pos.to_uint p). split; [apply DecimalPos.Unsigned.to_uint_nonnil|].
    left. split; [|split; [lia | assumption]].
    unfold DecimalString.NilZero.string_of_uint.
    destruct (Pos.to_uint p) eqn:E; try reflexivity.
    now apply DecimalPos.Unsigned.to_uint_nonnil in E.
  - exists (Pos.to_uint p). split; [apply DecimalPos.Unsigned.to_uint_nonnil|].
    right. split; [|split; [lia | assumption]].
    unfold DecimalString.NilZero.string_of_uint.
    destruct (Pos.to_uint p) eqn:E; try reflexivity.
    now apply DecimalPos.Unsigned.to_uint_nonnil in E.
Qed.

Lemma str_of_Z_chars (n : Z) : all_chars is_numeral_char (str_of_Z n) = true.
Proof.
  destruct (str_of_Z_shape n) as (d & _ & [(E & _) | (E & _)]); rewrite E; simpl;
    (apply all_chars_impl with (p := is_digit); [|apply uint_digits]);
    intros c Hc; unfold is_numeral_char; now rewrite Hc.
Qed.

(** [int(str(n)) == n] *)
Lemma py_int_str_of_Z (n : Z) : py_int (str_of_Z n) = Ok n.
Proof.
  destruct (str_of_Z_shape n) as (d & Hd & [(E & _ & V) | (E & _ & V)]); rewrite E.
  - now rewrite py_int_uint, V.
  - now rewrite py_int_neg_uint, V.
Qed.

(** ** OmqConnection: transactions and paths *)

Lemma numeral_not_location_char (c : ascii) :
  is_numeral_char c = true -> outside location_chars c = true.
Proof.
  destruct c as [[] [] [] [] [] [] [] []]; vm_compute; intros H;
    first [reflexivity | discriminate H].
Qed.

(** A location made of URL characters around a numeral yields the number. *)
Lemma strip_location (p t : string) (n : Z) :
  all_chars (inside location_chars) p = true ->
  all_chars (inside location_chars) t = true ->
  py_int (strip location_chars (p ++ str_of_Z n ++ t)) = Ok n.
Proof.
  intros Hp Ht. rewrite strip_core; try assumption.
  - apply py_int_str_of_Z.
  - apply all_chars_impl with (p := is_numeral_char).
    + apply numeral_not_location_char.
    + apply str_of_Z_chars.
Qed.

Lemma open_transaction_success (parseString : xml_parser) (send : transport)
    (self : OmqConnection.t) (resp : response) :
  send (OmqConnection.open_transaction_request self) = Ok resp ->
  (status resp < 400)%Z ->
  OmqConnection.open_transaction parseString send self =
  match getheader resp "location" with
  | Some location =>
      transaction_id <- py_int (strip location_chars location) ;;
      Ok (Some transaction_id)
  | None => Ok None
  end.
Proof.
  intros Hsend Hst. unfold OmqConnection.open_transaction.
  rewrite Hsend. cbn [bind].
  apply Z.ltb_lt in Hst. rewrite Hst. reflexivity.
Qed.

(** The location headers of the service, with the numeral as [str]
    writes it. *)
Lemma open_transaction_location (parseString : xml_parser) (send : transport)
    (self : OmqConnection.t) (resp : response) :
  send (OmqConnection.open_transaction_request self) = Ok resp ->
  (status resp < 400)%Z ->
  (forall (prefix : string) (n : Z),
      prefix = "https://mq.onlinemq.com/transactions/" \/ prefix = "/transactions/" ->
      getheader resp "location" = Some (prefix ++ str_of_Z n ++ "/") ->
      OmqConnection.open_transaction parseString send self = Ok (Some n)) /\
  (getheader resp "location" = None ->
      OmqConnection.open_transaction parseString send self = Ok None).
Proof.
  intros Hsend Hst.
  rewrite (open_transaction_success parseString send self resp Hsend Hst).
  split.
  - intros prefix n Hprefix Hloc. rewrite Hloc.
    rewrite strip_location; [reflexivity | | reflexivity].
    destruct Hprefix as [-> | ->]; reflexivity.
  - intros Hloc. now rewrite Hloc.
Qed.

Lemma open_transaction_42 :
  OmqConnection.open_transaction Expat.parseString created_42 some_connection = Ok (Some 42%Z).
Proof.
  refine (proj1 (open_transaction_location Expat.parseString created_42 some_connection
                   (mkResponse 201 _ "") eq_refl eq_refl)
            "/transactions/" 42%Z (or_intror eq_refl) eq_refl).
Defined.

Lemma append_assoc (a b c : string) : (a ++ b) ++ c = a ++ b ++ c.
Proof.
  induction a as [|x a IH]; simpl; [reflexivity | now rewrite IH].
Qed.

Lemma append_inv_head (s a b : string) : s ++ a = s ++ b -> a = b.
Proof.
  induction s as [|c s IH]; simpl; intros H; [assumption|].
  injection H as H. now apply IH.
Qed.

Example receive_message_path_30 :
  req_path (OmqConnection.receive_message_request some_connection 30 None)
    = "/queues/30/messages/receive" /\
  req_path (OmqConnection.receive_message_request some_connection 30 (Some 7%Z))
    = "/queues/30/messages/receive?transaction_id=7" /\
  req_path (OmqConnection.receive_message_request some_connection 30 (Some 0%Z))
    = "/queues/30/messages/receive" /\
  req_path (OmqConnection.send_message_request some_connection 30 hello_message (Some 7%Z))
    = "/queues/30/messages.xml?transaction_id=7".
Proof.
  repeat split.
Qed.

(** C3, on the code.  For every queue and every optional transaction,
    [receive_message] issues a POST request whose path is
    [/queues/{queue_id}/messages/receive] without the [.xml] postfix,
    followed by the transaction parameter when the transaction is given and
    is not 0: it is never the path of the claim. *)
Theorem receive_message_path_has_no_postfix (self : OmqConnection.t) (queue_id : Z)
    (transaction_id : option Z) :
  req_method (OmqConnection.receive_message_request self queue_id transaction_id) = "POST" /\
  req_path (OmqConnection.receive_message_request self queue_id transaction_id) =
    "/queues/" ++ str_of_Z queue_id ++ "/messages/receive" ++
    match transaction_id with
    | Some n => if (n =? 0)%Z then "" else "?transaction_id=" ++ str_of_Z n
    | None => ""
    end /\
  req_path (OmqConnection.receive_message_request self queue_id transaction_id)
    <> claimed_receive_path queue_id transaction_id.
Proof.
  split; [reflexivity|].
  assert (Hpath :
    req_path (OmqConnection.receive_message_request self queue_id transaction_id) =
    "/queues/" ++ str_of_Z queue_id ++ "/messages/receive" ++
    match transaction_id with
    | Some n => if (n =? 0)%Z then "" else "?transaction_id=" ++ str_of_Z n
    | None => ""
    end).
  { unfold OmqConnection.receive_message_request, OmqConnection._request.
    cbn [req_path].
    set (base := "/queues/" ++ str_of_Z queue_id ++ "/messages/receive").
    transitivity (base ++
      match transaction_id with
      | Some n => if (n =? 0)%Z then "" else "?transaction_id=" ++ str_of_Z n
      | None => ""
      end).
    - unfold OmqConnection.with_transaction, OmqConnection.transaction_given.
      destruct transaction_id as [n|]; cbn [option_map truthy].
      + destruct (n =? 0)%Z; cbn [negb]; [now rewrite append_empty_r | reflexivity].
      + now rewrite append_empty_r.
    - unfold base. now rewrite !append_assoc. }
  split; [exact Hpath|].
  rewrite Hpath. unfold claimed_receive_path. intros H.
  apply (append_inv_head "/queues/") in H.
  apply append_inv_head in H.
  destruct transaction_id as [n|]; [destruct (n =? 0)%Z|]; discriminate H.
Qed.

(** ** XmlHelper.get_tag_content *)

Lemma pop_last {A : Type} (front : list A) (x : A) : pop (front ++ [x]) = Some x.
Proof.
  induction front as [|y front IH]; [reflexivity|].
  simpl. rewrite IH. destruct (front ++ [x])%list eqn:E; [|reflexivity].
  now destruct front.
Qed.

Lemma typed_content_value (tag : node) (data : string) (unescape_xml : bool) :
  XmlHelper.typed_content tag data unescape_xml =
  typed_value (lookup_attr "type" (attributes_of tag)) data unescape_xml.
Proof.
  unfold XmlHelper.typed_content, typed_value, hasAttribute, getAttribute,
    XmlHelper.str_as_bool.
  destruct (lookup_attr "type" (attributes_of tag)) as [ty|]; [|reflexivity].
  destruct (String.eqb ty "integer"); [reflexivity|].
  destruct (String.eqb ty "boolean"); [|reflexivity].
  now destruct (String.eqb (lower data) "true").
Qed.

Lemma length_pos (s : string) : (0 <? String.length s)%nat = negb (String.eqb s "").
Proof.
  now destruct s.
Qed.

(** [get_tag_content] on the last element of the requested name, when its
    first child carries character data. *)
Lemma get_tag_content_data (doc : Document) (tag_name : string) (unescape_xml : bool)
    (front : list node) (tag n : node) (data : string) :
  getElementsByTagName doc tag_name = (front ++ [tag])%list ->
  firstChild tag = Some n ->
  node_data n = Ok data ->
  XmlHelper.get_tag_content doc tag_name unescape_xml =
  if String.eqb data "" then Ok None
  else v <- typed_value (lookup_attr "type" (attributes_of tag)) data unescape_xml ;;
       Ok (Some v).
Proof.
  intros Htags Hfirst Hdata. unfold XmlHelper.get_tag_content.
  rewrite Htags, pop_last, Hfirst, Hdata. cbn [bind].
  rewrite length_pos, typed_content_value.
  now destruct (String.eqb data "").
Qed.

(** The cases [get_tag_content] handles.  It returns [None] when no
    element of the name is found; otherwise it looks at the last one found
    and at its first child: with no child, or with a first child whose
    character data is empty, it returns [None]; with a first child whose
    character data is not empty it returns the typed reading of that data,
    the integer conversion raising [ValueError] on a text that is not a
    numeral. *)
Lemma get_tag_content_last_element (doc : Document) (tag_name : string)
    (unescape_xml : bool) :
  (getElementsByTagName doc tag_name = [] ->
   XmlHelper.get_tag_content doc tag_name unescape_xml = Ok None) /\
  (forall (front : list node) (tag : node),
     getElementsByTagName doc tag_name = (front ++ [tag])%list ->
     (firstChild tag = None ->
      XmlHelper.get_tag_content doc tag_name unescape_xml = Ok None) /\
     (forall (n : node) (data : string),
        firstChild tag = Some n -> node_data n = Ok data ->
        (data = "" ->
         XmlHelper.get_tag_content doc tag_name unescape_xml = Ok None) /\
        (data <> "" ->
         XmlHelper.get_tag_content doc tag_name unescape_xml =
         v <- typed_value (lookup_attr "type" (attributes_of tag)) data unescape_xml ;;
         Ok (Some v)))).
Proof.
  split.
  - intros Htags. unfold XmlHelper.get_tag_content. now rewrite Htags.
  - intros front tag Htags. split.
    + intros Hfirst. unfold XmlHelper.get_tag_content.
      now rewrite Htags, pop_last, Hfirst.
    + intros n data Hfirst Hdata.
      rewrite (get_tag_content_data doc tag_name unescape_xml front tag n data)
        by assumption.
      split.
      * intros ->. reflexivity.
      * intros Hne. apply String.eqb_neq in Hne. now rewrite Hne.
Qed.

Lemma get_tag_content_last_id :
  XmlHelper.get_tag_content queue_two_ids "id" true = Ok (Some (VInt 12)).
Proof.
  refine (proj2 (proj2 (proj2 (get_tag_content_last_element queue_two_ids "id" true)
            [Element "id" [] [Text "7"]]
            (Element "id" [("type", "integer")] [Text "12"]) eq_refl)
            (Text "12") "12" eq_refl eq_refl) _).
  discriminate.
Defined.




(** ** OmqServerException *)

Lemma server_error_message (parseString : xml_parser) (xml : string) (doc : Document) :
  parseString xml = Ok doc ->
  OmqServerException_init parseString xml =
  match pop (getElementsByTagName doc "error") with
  | Some tag => error <- firstChild_data tag ;; Ok (OmqServerException error)
  | None => Ok (OmqServerException "Unknown server error")
  end.
Proof.
  intros Hparse. unfold OmqServerException_init. now rewrite Hparse.
Qed.

(** The message of a server error whose last [error] element starts with
    character data, and the fallback. *)
Lemma server_error_last_text (parseString : xml_parser) (xml : string) (doc : Document)
    (front : list node) (tag n : node) (data : string) :
  parseString xml = Ok doc ->
  getElementsByTagName doc "error" = (front ++ [tag])%list ->
  firstChild tag = Some n ->
  node_data n = Ok data ->
  OmqServerException_init parseString xml = Ok (OmqServerException data).
Proof.
  intros Hparse Htags Hfirst Hdata.
  rewrite (server_error_message parseString xml doc Hparse), Htags, pop_last.
  unfold firstChild_data. now rewrite Hfirst, Hdata.
Qed.

Lemma server_error_fallback (parseString : xml_parser) (xml : string) (doc : Document) :
  parseString xml = Ok doc ->
  getElementsByTagName doc "error" = [] ->
  OmqServerException_init parseString xml = Ok (OmqServerException "Unknown server error").
Proof.
  intros Hparse Htags.
  now rewrite (server_error_message parseString xml doc Hparse), Htags.
Qed.

Example server_error_quota :
  OmqServerException_init Expat.parseString
    "<errors><error>first</error><error>quota exceeded</error></errors>"
  = Ok (OmqServerException "quota exceeded").
Proof. reflexivity. Qed.

(** C8, at an error body whose only [error] element is empty.  The
    constructor yields no message there: reading [firstChild.data] raises
    [AttributeError].  On the other two bodies it behaves as the claim
    says. *)
Theorem server_error_empty_element :
  OmqServerException_init Expat.parseString "<errors><error></error></errors>"
    = Raise (AttributeError "'NoneType' object has no attribute 'data'") /\
  OmqServerException_init Expat.parseString "<errors><error>quota exceeded</error></errors>"
    = Ok (OmqServerException "quota exceeded") /\
  OmqServerException_init Expat.parseString "<errors></errors>"
    = Ok (OmqServerException "Unknown server error").
Proof.
  repeat split.
Qed.

(** C10.  When the error body parses and its last [error] element has no
    child, constructing the server exception raises [AttributeError]: the
    result is neither an exception of the library nor the fallback
    message. *)
Theorem server_error_empty_last (parseString : xml_parser) (xml : string) (doc : Document)
    (front : list node) (tag : node) :
  parseString xml = Ok doc ->
  getElementsByTagName doc "error" = (front ++ [tag])%list ->
  childNodes_of tag = [] ->
  exists e,
    OmqServerException_init parseString xml = Raise e /\
    e = AttributeError "'NoneType' object has no attribute 'data'" /\
    is_library_error e = false /\
    OmqServerException_init parseString xml
      <> Ok (OmqServerException "Unknown server error").
Proof.
  intros Hparse Htags Hempty.
  exists (AttributeError "'NoneType' object has no attribute 'data'").
  assert (H : OmqServerException_init parseString xml
              = Raise (AttributeError "'NoneType' object has no attribute 'data'")).
  { rewrite (server_error_message parseString xml doc Hparse), Htags, pop_last.
    unfold firstChild_data, firstChild. now rewrite Hempty. }
  repeat split; [assumption|]. rewrite H. discriminate.
Qed.

Lemma server_error_empty_last_of_two :
  exists e,
    OmqServerException_init Expat.parseString
      "<errors><error>quota exceeded</error><error/></errors>" = Raise e /\
    e = AttributeError "'NoneType' object has no attribute 'data'" /\
    is_library_error e = false /\
    OmqServerException_init Expat.parseString
      "<errors><error>quota exceeded</error><error/></errors>"
      <> Ok (OmqServerException "Unknown server error").
Proof.
  refine (server_error_empty_last Expat.parseString
            "<errors><error>quota exceeded</error><error/></errors>"
            (mkDocument [Element "errors" []
                           [Element "error" [] [Text "quota exceeded"];
                            Element "error" [] []]])
            [Element "error" [] [Text "quota exceeded"]]
            (Element "error" [] []) eq_refl eq_refl eq_refl).
Defined.

(** ** OmqMessage.from_xml and OmqQueue.from_xml *)

(** C5.  [OmqMessage.from_xml] never raises: on every input, and for every
    behaviour of the XML parser, it returns the message its body built, or
    [None] when the body raised, be it the parser on malformed XML or any
    later step. *)
Theorem message_from_xml_total (parseString : xml_parser) (xml_str : string) :
  (exists r, OmqMessage.from_xml parseString xml_str = Ok r) /\
  (forall e, parseString xml_str = Raise e ->
             OmqMessage.from_xml parseString xml_str = Ok None) /\
  (forall e, OmqMessage.from_xml_body parseString xml_str = Raise e ->
             OmqMessage.from_xml parseString xml_str = Ok None) /\
  (forall m, OmqMessage.from_xml_body parseString xml_str = Ok m ->
             OmqMessage.from_xml parseString xml_str = Ok (Some m)).
Proof.
  unfold OmqMessage.from_xml.
  repeat split.
  - destruct (OmqMessage.from_xml_body parseString xml_str); simpl; eauto.
  - intros e He. unfold OmqMessage.from_xml_body. now rewrite He.
  - intros e He. now rewrite He.
  - intros m Hm. now rewrite Hm.
Qed.

Example message_from_xml_malformed :
  OmqMessage.from_xml Expat.parseString "<message><body>unclosed" = Ok None.
Proof. reflexivity. Qed.

(** C6.  When the body of [OmqQueue.from_xml] raises an exception [e], be it
    the parser on a malformed input or a later step, [from_xml] raises
    [OmqException(repr(e))], an error of the library; it does not return
    [None], which is what [OmqMessage.from_xml] does when its body raises. *)
Theorem queue_from_xml_failure (parseString : xml_parser) (xml_str : string) (e : exn) :
  OmqQueue.from_xml_body parseString xml_str = Raise e ->
  OmqQueue.from_xml parseString xml_str = Raise (OmqException (repr_exn e)) /\
  is_library_error (OmqException (repr_exn e)) = true /\
  (forall e', OmqMessage.from_xml_body parseString xml_str = Raise e' ->
              OmqMessage.from_xml parseString xml_str = Ok None).
Proof.
  intros He. unfold OmqQueue.from_xml. rewrite He.
  split; [reflexivity|]. split; [reflexivity|].
  intros e' He'. unfold OmqMessage.from_xml. now rewrite He'.
Qed.

Lemma queue_from_xml_parse_failure (parseString : xml_parser) (xml_str : string) (e : exn) :
  parseString xml_str = Raise e ->
  OmqQueue.from_xml_body parseString xml_str = Raise e.
Proof.
  intros He. unfold OmqQueue.from_xml_body. now rewrite He.
Qed.

Lemma queue_from_xml_mismatched_tag :
  OmqQueue.from_xml Expat.parseString "<queue><id>3</queue>"
    = Raise (OmqException "ExpatError('mismatched tag',)") /\
  is_library_error (OmqException "ExpatError('mismatched tag',)") = true /\
  (forall e', OmqMessage.from_xml_body Expat.parseString "<queue><id>3</queue>" = Raise e' ->
              OmqMessage.from_xml Expat.parseString "<queue><id>3</queue>" = Ok None).
Proof.
  refine (queue_from_xml_failure Expat.parseString "<queue><id>3</queue>"
            (ExpatError "mismatched tag") eq_refl).
Defined.

(** ** OmqMessage.get_message_as_xml *)

Lemma add_tag_with_value_untyped (t : string) (attrs : list (string * string))
    (cs : list node) (tag : string) (v : option value) (escaped : bool) :
  XmlHelper.add_tag_with_value (Element t attrs cs) tag v None escaped =
  Element t attrs (cs ++ field_element tag v escaped).
Proof.
  destruct v as [x|]; simpl.
  - reflexivity.
  - now rewrite app_nil_r.
Qed.

Lemma message_document_children (m : OmqMessage.t) :
  OmqMessage.message_document m = mkDocument [Element "message" [] (message_children m)].
Proof.
  unfold OmqMessage.message_document, message_children, createElement.
  destruct (OmqMessage.escaped_encoding (OmqMessage.encoding m));
    rewrite !add_tag_with_value_untyped, <- !app_assoc; reflexivity.
Qed.

Lemma field_element_attributes (tag : string) (v : option value) (escaped : bool)
    (e : node) :
  In e (field_element tag v escaped) -> attributes_of e = [].
Proof.
  destruct v as [x|]; simpl; [|contradiction].
  intros [<- | []]. reflexivity.
Qed.

Lemma writexml_field (tag : string) (v : option value) (escaped : bool) :
  concat_str (map writexml (field_element tag v escaped)) =
  match v with
  | None => ""
  | Some x =>
      "<" ++ tag ++ ">" ++ write_data (if escaped then escape (py_str x) else py_str x)
          ++ "</" ++ tag ++ ">"
  end.
Proof.
  destruct v as [x|]; [|reflexivity].
  cbn [field_element map concat_str fold_right writexml sort_attrs].
  rewrite !append_empty_r. reflexivity.
Qed.

(** C2, as the code has it.  [get_message_as_xml] writes the XML declaration
    for UTF-8 and one root element [message]; its children are, in this
    order, [body_encoding_id], [priority], [body_type_id], [description] and
    [body], each present exactly when the field is not [None], each without
    any attribute ([body_encoding_id] carries no [type]) and each holding the
    string form of the field, escaped except for the body of a message
    whose encoding is neither UTF8 nor XML-escaped. *)
Theorem get_message_as_xml_shape (m : OmqMessage.t) :
  OmqMessage.message_document m = mkDocument [Element "message" [] (message_children m)] /\
  OmqMessage.get_message_as_xml m =
    xml_declaration "UTF-8" ++ writexml (Element "message" [] (message_children m)) /\
  (forall e, In e (message_children m) -> attributes_of e = []) /\
  (forall tag v escaped,
      field_element tag v escaped = [] <-> v = None) /\
  (forall tag v escaped,
      concat_str (map writexml (field_element tag v escaped)) =
      match v with
      | None => ""
      | Some x =>
          "<" ++ tag ++ ">" ++ write_data (if escaped then escape (py_str x) else py_str x)
              ++ "</" ++ tag ++ ">"
      end).
Proof.
  split; [apply message_document_children|].
  split.
  { unfold OmqMessage.get_message_as_xml, toxml.
    rewrite message_document_children.
    cbn [doc_childNodes map concat_str fold_right].
    now rewrite append_empty_r. }
  split.
  { intros e He. unfold message_children in He.
    rewrite !in_app_iff in He.
    repeat (destruct He as [He | He]); eapply field_element_attributes; eassumption. }
  split.
  { intros tag v escaped. destruct v; simpl; split; intros H; congruence. }
  apply writexml_field.
Qed.

(** C2 as stated fails: the [body_encoding_id] element of a serialised
    message has no [type] attribute. *)
Lemma body_encoding_id_has_no_type :
  OmqMessage.get_message_as_xml hello_message =
    xml_declaration "UTF-8" ++
    "<message><body_encoding_id>1</body_encoding_id>" ++
    "<body>this is the message body!</body></message>" /\
  getElementsByTagName (OmqMessage.message_document hello_message) "body_encoding_id"
    = [Element "body_encoding_id" [] [Text "1"]] /\
  hasAttribute (Element "body_encoding_id" [] [Text "1"]) "type" = false /\
  getAttribute (Element "body_encoding_id" [] [Text "1"]) "type" <> "integer".
Proof.
  repeat split. discriminate.
Qed.

(** ** Serialising, then deserialising *)

Lemma py_eq_ENC_UTF8 (v : option value) :
  py_eq v OmqMessage.ENC_UTF8 = true -> v = Some OmqMessage.ENC_UTF8.
Proof.
  destruct v as [[z|s]|]; simpl; try discriminate.
  intros H. apply Z.eqb_eq in H. now subst.
Qed.

(** [from_xml] builds a message only from a document whose
    [body_encoding_id] reads as the integer 1: for any other reading the
    test of line 243 goes on to evaluate [self]. *)
Lemma from_xml_body_encoding (parseString : xml_parser) (xml_str : string)
    (m : OmqMessage.t) :
  OmqMessage.from_xml_body parseString xml_str = Ok m ->
  exists doc,
    parseString xml_str = Ok doc /\
    XmlHelper.get_tag_content doc "body_encoding_id" true = Ok (Some OmqMessage.ENC_UTF8) /\
    OmqMessage.encoding m = Some OmqMessage.ENC_UTF8.
Proof.
  unfold OmqMessage.from_xml_body.
  destruct (parseString xml_str) as [doc|]; [|discriminate]. cbn [bind].
  destruct (XmlHelper.get_tag_content doc "body_encoding_id" true) as [enc|] eqn:Henc;
    [|discriminate]. cbn [bind].
  repeat match goal with
         | |- context [bind (XmlHelper.get_tag_content doc ?t true) _] =>
             destruct (XmlHelper.get_tag_content doc t true); [|discriminate];
             cbn [bind]
         end.
  destruct (py_eq enc OmqMessage.ENC_UTF8) eqn:E; [|discriminate].
  apply py_eq_ENC_UTF8 in E. subst enc. cbn [bind].
  destruct (XmlHelper.get_tag_content doc "body" true); [|discriminate]. cbn [bind].
  intros [= <-]. exists doc. repeat split. exact Henc.
Qed.

Lemma from_xml_None (parseString : xml_parser) (xml_str : string) :
  (forall m, OmqMessage.from_xml_body parseString xml_str <> Ok m) ->
  OmqMessage.from_xml parseString xml_str = Ok None.
Proof.
  intros H. unfold OmqMessage.from_xml.
  destruct (OmqMessage.from_xml_body parseString xml_str) as [m|e]; [|reflexivity].
  now destruct (H m).
Qed.

(** What [get_tag_content] reads from an element without attributes is a
    string, never an integer. *)
Lemma untyped_content_is_text (doc : Document) (tag_name : string) (unescape_xml : bool)
    (front : list node) (tag : node) (z : Z) :
  getElementsByTagName doc tag_name = (front ++ [tag])%list ->
  attributes_of tag = [] ->
  XmlHelper.get_tag_content doc tag_name unescape_xml <> Ok (Some (VInt z)).
Proof.
  intros Htags Hattrs. unfold XmlHelper.get_tag_content.
  rewrite Htags, pop_last.
  destruct (firstChild tag) as [n|]; [|discriminate].
  destruct (node_data n) as [data|]; [|discriminate]. cbn [bind].
  destruct (0 <? String.length data)%nat; [|discriminate].
  rewrite typed_content_value, Hattrs. simpl. discriminate.
Qed.

Lemma elements_of_field (name tag : string) (v : option value) (escaped : bool) :
  flat_map (elements_by_tagName name) (field_element tag v escaped) =
  if String.eqb name "*" || String.eqb tag name then field_element tag v escaped else [].
Proof.
  destruct v as [x|]; simpl.
  - now destruct (String.eqb name "*" || String.eqb tag name).
  - now destruct (String.eqb name "*" || String.eqb tag name).
Qed.

(** The elements named [body_encoding_id] of a serialised message. *)
Lemma message_encoding_elements (m : OmqMessage.t) :
  getElementsByTagName (OmqMessage.message_document m) "body_encoding_id" =
  field_element "body_encoding_id" (OmqMessage.encoding m) true.
Proof.
  rewrite message_document_children. unfold getElementsByTagName, message_children.
  cbn [doc_childNodes flat_map elements_by_tagName].
  rewrite !flat_map_app, !elements_of_field. 
  replace (String.eqb "body_encoding_id" "*") with false by reflexivity.
  replace (String.eqb "message" "body_encoding_id") with false by reflexivity.
  replace (String.eqb "body_encoding_id" "body_encoding_id") with true by reflexivity.
  replace (String.eqb "priority" "body_encoding_id") with false by reflexivity.
  replace (String.eqb "body_type_id" "body_encoding_id") with false by reflexivity.
  replace (String.eqb "description" "body_encoding_id") with false by reflexivity.
  replace (String.eqb "body" "body_encoding_id") with false by reflexivity.
  cbn [orb app]. now rewrite !app_nil_r.
Qed.

Lemma message_encoding_not_int (m : OmqMessage.t) (z : Z) :
  XmlHelper.get_tag_content (OmqMessage.message_document m) "body_encoding_id" true
  <> Ok (Some (VInt z)).
Proof.
  destruct (OmqMessage.encoding m) as [x|] eqn:E.
  - apply untyped_content_is_text
      with (front := []) (tag := Element "body_encoding_id" [] [Text (escape (py_str x))]).
    + now rewrite message_encoding_elements, E.
    + reflexivity.
  - unfold XmlHelper.get_tag_content. rewrite message_encoding_elements, E. discriminate.
Qed.

(** C1, on the code.  For every message, and every parser that reads the
    written document back as the tree it was written from, [from_xml] of
    [get_message_as_xml] is [None]: the encoding comes back as the string
    ['1'] (or ['2'], ...), which is not equal to the integer [ENC_UTF8], and
    the second operand of the test then raises [NameError], which the bare
    [except] turns into [None].  No body is returned, escaped or not. *)
Theorem from_xml_of_serialized_message (parseString : xml_parser) (m : OmqMessage.t) :
  parseString (OmqMessage.get_message_as_xml m) = Ok (OmqMessage.message_document m) ->
  OmqMessage.from_xml parseString (OmqMessage.get_message_as_xml m) = Ok None.
Proof.
  intros Hparse. apply from_xml_None. intros m' Hm'.
  apply from_xml_body_encoding in Hm' as (doc & Hdoc & Henc & _).
  rewrite Hparse in Hdoc. injection Hdoc as <-.
  now apply message_encoding_not_int in Henc.
Qed.

Lemma from_xml_of_utf8_message :
  OmqMessage.from_xml Expat.parseString (OmqMessage.get_message_as_xml utf8_message)
  = Ok None.
Proof.
  refine (from_xml_of_serialized_message Expat.parseString utf8_message eq_refl).
Defined.

Example from_xml_of_cdata_message :
  OmqMessage.from_xml Expat.parseString (OmqMessage.get_message_as_xml cdata_message)
  = Ok None.
Proof. reflexivity. Qed.

(** The wire form of the two messages: the body of the first is escaped by
    the module and again by the writer, the body of the second by the writer
    only. *)
Example utf8_message_xml :
  OmqMessage.get_message_as_xml utf8_message =
  xml_declaration "UTF-8" ++
  "<message><body_encoding_id>1</body_encoding_id>" ++
  "<body>a&amp;lt;b&amp;amp;c&quot;d</body></message>".
Proof. reflexivity. Qed.

Example cdata_message_xml :
  OmqMessage.get_message_as_xml cdata_message =
  xml_declaration "UTF-8" ++
  "<message><body_encoding_id>2</body_encoding_id>" ++
  "<body>a&lt;b&amp;c&quot;d</body></message>".
Proof. reflexivity. Qed.

(** A reply of the server, with the encoding typed: the body of a UTF-8
    message is unescaped; for any other encoding the test reaches [self] and
    the message is lost. *)
Example from_xml_typed_utf8 :
  OmqMessage.from_xml Expat.parseString
    ("<message><body_encoding_id type=" ++ q_integer ++ ">1</body_encoding_id>" ++
     "<body>a&amp;lt;b</body></message>")
  = Ok (Some (OmqMessage.init (Some (VStr "a<b")) (Some OmqMessage.ENC_UTF8)
                None None None None None None)).
Proof. reflexivity. Qed.

Example from_xml_typed_cdata :
  OmqMessage.from_xml Expat.parseString
    ("<message><body_encoding_id type=" ++ q_integer ++ ">2</body_encoding_id>" ++
     "<body>a&lt;b</body></message>")
  = Ok None.
Proof. reflexivity. Qed.

(** * Further properties *)

(** ** escape and unescape *)

Lemma subst_chars_app (f : ascii -> string) (s t : string) :
  subst_chars f (s ++ t) = subst_chars f s ++ subst_chars f t.
Proof.
  induction s as [|c s IH]; simpl; [reflexivity|].
  now rewrite IH, append_assoc.
Qed.

Lemma subst_chars_id (f : ascii -> string) (s : string) :
  (forall c, mem c s = true -> f c = str1 c) -> subst_chars f s = s.
Proof.
  induction s as [|c s IH]; simpl; intros H; [reflexivity|].
  rewrite (H c) by now rewrite Ascii.eqb_refl.
  simpl. f_equal. apply IH. intros d Hd. apply H. now rewrite Hd, orb_true_r.
Qed.

(** A replacement that acts on each character's text separately acts on
    the whole text character by character. *)
Lemma replace_subst_chars (old new : string) (f g : ascii -> string) :
  (forall c rest, replace_from old new 0 (f c ++ rest) = g c ++ replace_from old new 0 rest) ->
  forall s, replace old new (subst_chars f s) = subst_chars g s.
Proof.
  intros H s. unfold replace. induction s as [|c s IH]; simpl; [reflexivity|].
  now rewrite H, IH.
Qed.

(** [prefix "" rest] needs the shape of [rest] to compute. *)
Ltac each_char c rest :=
  destruct c as [[] [] [] [] [] [] [] []];
  first [reflexivity | destruct rest; reflexivity].

Lemma escape_stage_amp (c : ascii) (rest : string) :
  replace_from "&" "&amp;" 0 (str1 c ++ rest) = esc_amp c ++ replace_from "&" "&amp;" 0 rest.
Proof. each_char c rest. Qed.

Lemma escape_stage_gt (c : ascii) (rest : string) :
  replace_from ">" "&gt;" 0 (esc_amp c ++ rest) = esc_amp_gt c ++ replace_from ">" "&gt;" 0 rest.
Proof. each_char c rest. Qed.

Lemma escape_stage_lt (c : ascii) (rest : string) :
  replace_from "<" "&lt;" 0 (esc_amp_gt c ++ rest) = esc_char c ++ replace_from "<" "&lt;" 0 rest.
Proof. each_char c rest. Qed.

Lemma unescape_stage_lt (c : ascii) (rest : string) :
  replace_from "&lt;" "<" 0 (esc_char c ++ rest) = esc_amp_gt c ++ replace_from "&lt;" "<" 0 rest.
Proof. each_char c rest. Qed.

Lemma unescape_stage_gt (c : ascii) (rest : string) :
  replace_from "&gt;" ">" 0 (esc_amp_gt c ++ rest) = esc_amp c ++ replace_from "&gt;" ">" 0 rest.
Proof. each_char c rest. Qed.

Lemma unescape_stage_amp (c : ascii) (rest : string) :
  replace_from "&amp;" "&" 0 (esc_amp c ++ rest) = str1 c ++ replace_from "&amp;" "&" 0 rest.
Proof. each_char c rest. Qed.

Lemma subst_chars_str1 (s : string) : subst_chars str1 s = s.
Proof.
  induction s as [|c s IH]; simpl; [reflexivity | now rewrite IH].
Qed.

(** [escape] rewrites a text character by character. *)
Lemma escape_chars (s : string) : escape s = subst_chars esc_char s.
Proof.
  unfold escape.
  rewrite <- (subst_chars_str1 s) at 1.
  rewrite (replace_subst_chars "&" "&amp;" str1 esc_amp escape_stage_amp).
  rewrite (replace_subst_chars ">" "&gt;" esc_amp esc_amp_gt escape_stage_gt).
  apply (replace_subst_chars "<" "&lt;" esc_amp_gt esc_char escape_stage_lt).
Qed.

(** [unescape(escape(s)) == s] *)
Lemma unescape_escape (s : string) : unescape (escape s) = s.
Proof.
  rewrite escape_chars. unfold unescape.
  rewrite (replace_subst_chars "&lt;" "<" esc_char esc_amp_gt unescape_stage_lt).
  rewrite (replace_subst_chars "&gt;" ">" esc_amp_gt esc_amp unescape_stage_gt).
  rewrite (replace_subst_chars "&amp;" "&" esc_amp str1 unescape_stage_amp).
  apply subst_chars_str1.
Qed.

Lemma escape_numeral (n : Z) : escape (str_of_Z n) = str_of_Z n.
Proof.
  rewrite escape_chars. apply subst_chars_id.
  pose proof (str_of_Z_chars n) as H. revert H.
  induction (str_of_Z n) as [|d s IH]; simpl; [discriminate|].
  intros H c Hc. apply andb_true_iff in H as [Hd Hs].
  apply orb_true_iff in Hc as [Hc | Hc]; [|now apply IH].
  apply Ascii.eqb_eq in Hc. subst d. revert Hd.
  destruct c as [[] [] [] [] [] [] [] []]; vm_compute; intros Hd;
    first [reflexivity | discriminate Hd].
Qed.

Lemma str_of_Z_nonempty (n : Z) : String.eqb (str_of_Z n) "" = false.
Proof.
  destruct (str_of_Z_shape n) as (d & Hd & [(E & _) | (E & _)]); rewrite E;
    [|reflexivity].
  destruct (uint_first_digit d Hd) as (c & r & E' & _). now rewrite E'.
Qed.

Lemma escape_empty (s : string) : String.eqb (escape s) "" = String.eqb s "".
Proof.
  rewrite escape_chars. destruct s as [|c s]; [reflexivity|]. simpl.
  unfold esc_char.
  destruct (Ascii.eqb c "&"); [reflexivity|].
  destruct (Ascii.eqb c ">"); [reflexivity|].
  destruct (Ascii.eqb c "<"); reflexivity.
Qed.

(** ** XmlHelper: writing a field and reading it back *)

Lemma add_tag_with_value_element (t : string) (attrs : list (string * string))
    (cs : list node) (tag : string) (v : option value) (type : option string)
    (escaped : bool) :
  XmlHelper.add_tag_with_value (Element t attrs cs) tag v type escaped =
  Element t attrs (cs ++ typed_field_element tag v type escaped).
Proof.
  destruct v as [x|]; simpl.
  - destruct type as [ty|]; simpl; [|reflexivity].
    now destruct (String.eqb ty "").
  - now rewrite app_nil_r.
Qed.

Lemma lookup_type_attributes (type : option string) :
  lookup_attr "type" (type_attributes type) =
  match type with
  | Some ty => if String.eqb ty "" then None else Some ty
  | None => None
  end.
Proof.
  destruct type as [ty|]; [|reflexivity]. simpl.
  now destruct (String.eqb ty "").
Qed.

(** The elements found under a name after a field of that name was added:
    the new element is the last of them. *)
Lemma elements_after_add (t : string) (attrs : list (string * string)) (cs : list node)
    (tag : string) (x : value) (type : option string) (escaped : bool) :
  exists front,
    getElementsByTagName
      (mkDocument [XmlHelper.add_tag_with_value (Element t attrs cs) tag (Some x) type escaped])
      tag
    = (front ++ [Element tag (type_attributes type)
                   [Text (if escaped then escape (py_str x) else py_str x)]])%list.
Proof.
  rewrite add_tag_with_value_element. unfold getElementsByTagName.
  cbn [doc_childNodes flat_map elements_by_tagName typed_field_element].
  rewrite app_nil_r, flat_map_app.
  cbn [flat_map elements_by_tagName]. rewrite String.eqb_refl, orb_true_r.
  cbn [app]. rewrite app_assoc. eauto.
Qed.

(** What [get_tag_content] reads of a field [add_tag_with_value] has just
    added, whatever the element held before. *)
Lemma read_after_add (t : string) (attrs : list (string * string)) (cs : list node)
    (tag : string) (x : value) (type : option string) (escaped unescape_xml : bool) :
  XmlHelper.get_tag_content
    (mkDocument [XmlHelper.add_tag_with_value (Element t attrs cs) tag (Some x) type escaped])
    tag unescape_xml
  = let data := if escaped then escape (py_str x) else py_str x in
    if String.eqb data "" then Ok None
    else v <- typed_value (lookup_attr "type" (type_attributes type)) data unescape_xml ;;
         Ok (Some v).
Proof.
  destruct (elements_after_add t attrs cs tag x type escaped) as [front Hfront].
  now rewrite (get_tag_content_data _ tag unescape_xml front _ _ _ Hfront eq_refl eq_refl).
Qed.

(** X1.  A value written without a type and read back, with escaping on both
    sides or on neither, is the string form of the value; an empty text
    reads back as [None].  The field just written is the one read, whatever
    the element already held under that name. *)
Theorem text_field_round_trip (t : string) (attrs : list (string * string))
    (cs : list node) (tag : string) (x : value) (escaped : bool) :
  XmlHelper.get_tag_content
    (mkDocument [XmlHelper.add_tag_with_value (Element t attrs cs) tag (Some x) None escaped])
    tag escaped
  = Ok (if String.eqb (py_str x) "" then None else Some (VStr (py_str x))).
Proof.
  rewrite read_after_add. cbn zeta.
  destruct escaped.
  - rewrite escape_empty. destruct (String.eqb (py_str x) ""); [reflexivity|].
    cbn. now rewrite unescape_escape.
  - destruct (String.eqb (py_str x) ""); reflexivity.
Qed.

(** X2.  An integer written with [type='integer'] reads back as that integer,
    whatever the escaping flags. *)
Theorem integer_field_round_trip (t : string) (attrs : list (string * string))
    (cs : list node) (tag : string) (n : Z) (escaped unescape_xml : bool) :
  XmlHelper.get_tag_content
    (mkDocument [XmlHelper.add_tag_with_value (Element t attrs cs) tag (Some (VInt n))
                   (Some "integer") escaped])
    tag unescape_xml
  = Ok (Some (VInt n)).
Proof.
  rewrite read_after_add. cbn zeta. cbn [py_str].
  replace (if escaped then escape (str_of_Z n) else str_of_Z n) with (str_of_Z n)
    by (destruct escaped; [now rewrite escape_numeral | reflexivity]).
  rewrite str_of_Z_nonempty. cbn. now rewrite py_int_str_of_Z.
Qed.

(** X3.  A truth value written as [receive_enabled] is, through [bool_as_str]
    with [type='boolean'], reads back as 1 or 0. *)
Theorem boolean_field_round_trip (t : string) (attrs : list (string * string))
    (cs : list node) (tag : string) (b : option value) (escaped unescape_xml : bool) :
  XmlHelper.get_tag_content
    (mkDocument [XmlHelper.add_tag_with_value (Element t attrs cs) tag
                   (Some (VStr (XmlHelper.bool_as_str b))) (Some "boolean") escaped])
    tag unescape_xml
  = Ok (Some (VInt (if truthy b then 1 else 0))).
Proof.
  rewrite read_after_add. unfold XmlHelper.bool_as_str.
  destruct (truthy b), escaped; reflexivity.
Qed.

(** X4.  Adding a field under another name does not change what is read under
    a name, the name of the element added to apart. *)
Theorem get_tag_content_other_field (t : string) (attrs : list (string * string))
    (cs : list node) (tag other : string) (v : option value) (type : option string)
    (escaped unescape_xml : bool) :
  other <> tag -> t <> tag -> tag <> "*" ->
  XmlHelper.get_tag_content
    (mkDocument [XmlHelper.add_tag_with_value (Element t attrs cs) other v type escaped])
    tag unescape_xml
  = XmlHelper.get_tag_content (mkDocument [Element t attrs cs]) tag unescape_xml.
Proof.
  intros Hother Hroot Hstar. apply String.eqb_neq in Hother, Hroot, Hstar.
  rewrite add_tag_with_value_element. unfold XmlHelper.get_tag_content.
  replace (getElementsByTagName (mkDocument [Element t attrs (cs ++ typed_field_element other v type escaped)]) tag)
    with (getElementsByTagName (mkDocument [Element t attrs cs]) tag); [reflexivity|].
  unfold getElementsByTagName. cbn [doc_childNodes flat_map elements_by_tagName].
  rewrite Hstar, Hroot. cbn [orb app].
  rewrite !app_nil_r, flat_map_app.
  destruct v as [x|]; cbn [typed_field_element flat_map elements_by_tagName].
  - rewrite Hstar, Hother. cbn. now rewrite app_nil_r.
  - now rewrite app_nil_r.
Qed.

Lemma get_tag_content_other_field_example :
  XmlHelper.get_tag_content
    (mkDocument [XmlHelper.add_tag_with_value
                   (Element "queue" [] [Element "id" [("type", "integer")] [Text "12"]])
                   "name" (Some (VStr "jobs")) None true])
    "id" true
  = XmlHelper.get_tag_content
      (mkDocument [Element "queue" [] [Element "id" [("type", "integer")] [Text "12"]]])
      "id" true.
Proof.
  refine (get_tag_content_other_field "queue" [] _ "id" "name" _ None true true _ _ _);
    discriminate.
Defined.

(** ** OmqQueue.get_queue_as_xml *)

Lemma queue_document_children (q : OmqQueue.t) :
  OmqQueue.queue_document q = mkDocument [Element "queue" [] (queue_children q)].
Proof.
  unfold OmqQueue.queue_document, queue_children, createElement.
  rewrite !add_tag_with_value_element, <- !app_assoc. reflexivity.
Qed.

Lemma elements_typed_field (name tag : string) (v : option value) (type : option string)
    (escaped : bool) :
  flat_map (elements_by_tagName name) (typed_field_element tag v type escaped) =
  if String.eqb name "*" || String.eqb tag name
  then typed_field_element tag v type escaped else [].
Proof.
  destruct v as [x|]; simpl; now destruct (String.eqb name "*" || String.eqb tag name).
Qed.

Ltac queue_elements :=
  rewrite queue_document_children; unfold getElementsByTagName, queue_children;
  cbn [doc_childNodes flat_map elements_by_tagName];
  rewrite !flat_map_app, !elements_typed_field;
  cbn [String.eqb Ascii.eqb Bool.eqb orb andb app];
  rewrite ?app_nil_r; reflexivity.

(** X5.  [get_queue_as_xml] writes the root [queue] with the fields in the order
    description, id, max_depth, max_message_length, name, queue_manager_id,
    receive_enabled, send_enabled, visibility_timeout; the four integers
    carry [type="integer"]; [receive_enabled] is always written, as the
    typed boolean text of its truth value ([false] for [None]), while
    [send_enabled] is written untyped in its string form and left out when
    [None]; no [depth] element is ever written. *)
Theorem get_queue_as_xml_shape (q : OmqQueue.t) :
  OmqQueue.queue_document q = mkDocument [Element "queue" [] (queue_children q)] /\
  OmqQueue.get_queue_as_xml q =
    xml_declaration "UTF-8" ++ writexml (Element "queue" [] (queue_children q)) /\
  getElementsByTagName (OmqQueue.queue_document q) "receive_enabled" =
    [Element "receive_enabled" [("type", "boolean")]
       [Text (if truthy (OmqQueue.receive_enabled q) then "true" else "false")]] /\
  getElementsByTagName (OmqQueue.queue_document q) "send_enabled" =
    match OmqQueue.send_enabled q with
    | Some x => [Element "send_enabled" [] [Text (escape (py_str x))]]
    | None => []
    end /\
  getElementsByTagName (OmqQueue.queue_document q) "depth" = [].
Proof.
  split; [apply queue_document_children|].
  split.
  { unfold OmqQueue.get_queue_as_xml, toxml. rewrite queue_document_children.
    cbn [doc_childNodes map concat_str fold_right]. now rewrite append_empty_r. }
  split.
  { transitivity (typed_field_element "receive_enabled"
       (Some (VStr (XmlHelper.bool_as_str (OmqQueue.receive_enabled q)))) (Some "boolean") true).
    - queue_elements.
    - unfold XmlHelper.bool_as_str. now destruct (truthy (OmqQueue.receive_enabled q)). }
  split.
  { transitivity (typed_field_element "send_enabled" (OmqQueue.send_enabled q) None true).
    - queue_elements.
    - now destruct (OmqQueue.send_enabled q). }
  queue_elements.
Qed.

(** ** Writing a queue and reading it back *)

Lemma read_missing_field (doc : Document) (tag : string) (unescape_xml : bool) :
  getElementsByTagName doc tag = [] ->
  XmlHelper.get_tag_content doc tag unescape_xml = Ok None.
Proof.
  intros H. unfold XmlHelper.get_tag_content. now rewrite H.
Qed.

Lemma read_typed_field (doc : Document) (tag : string) (x : value) (type : option string)
    (escaped unescape_xml : bool) :
  getElementsByTagName doc tag = typed_field_element tag (Some x) type escaped ->
  XmlHelper.get_tag_content doc tag unescape_xml =
  let data := if escaped then escape (py_str x) else py_str x in
  if String.eqb data "" then Ok None
  else v <- typed_value (lookup_attr "type" (type_attributes type)) data unescape_xml ;;
       Ok (Some v).
Proof.
  intros H.
  now rewrite (get_tag_content_data doc tag unescape_xml [] _ _ _ H eq_refl eq_refl).
Qed.

Lemma read_text_field (doc : Document) (tag : string) (v : option value) :
  getElementsByTagName doc tag = typed_field_element tag v None true ->
  XmlHelper.get_tag_content doc tag true = Ok (as_text v).
Proof.
  destruct v as [x|]; intros H; [|now apply read_missing_field].
  rewrite (read_typed_field doc tag x None true true H). cbn zeta.
  rewrite escape_empty. unfold as_text.
  destruct (String.eqb (py_str x) ""); [reflexivity|].
  cbn. now rewrite unescape_escape.
Qed.

Lemma read_int_field (doc : Document) (tag : string) (v : option value) :
  getElementsByTagName doc tag = typed_field_element tag v (Some "integer") true ->
  int_field v ->
  XmlHelper.get_tag_content doc tag true = Ok v.
Proof.
  destruct v as [[n|s]|]; intros H Hint; [| contradiction | now apply read_missing_field].
  rewrite (read_typed_field doc tag (VInt n) (Some "integer") true true H).
  cbn zeta. cbn [py_str]. rewrite escape_numeral, str_of_Z_nonempty.
  cbn. now rewrite py_int_str_of_Z.
Qed.

Lemma read_bool_field (doc : Document) (tag : string) (b : option value) :
  getElementsByTagName doc tag =
    typed_field_element tag (Some (VStr (XmlHelper.bool_as_str b))) (Some "boolean") true ->
  XmlHelper.get_tag_content doc tag true = Ok (Some (truth_int b)).
Proof.
  intros H. rewrite (read_typed_field doc tag _ (Some "boolean") true true H).
  unfold XmlHelper.bool_as_str, truth_int. now destruct (truthy b).
Qed.

(** X6.  Reading back the tree of a serialised queue.  For a queue whose id,
    depth limit, length limit and queue manager are integers (or [None]),
    and a parser that reads the written document back as the tree it was
    written from, [OmqQueue.from_xml] of [get_queue_as_xml] returns a queue
    with the same four integers, the name and the description in their
    string form ([None] for an empty one), [receive_enabled] as 1 or 0 by
    its truth value, [send_enabled] and [visibility_timeout] as strings,
    and no depth. *)
Theorem queue_round_trip (parseString : xml_parser) (q : OmqQueue.t) :
  parseString (OmqQueue.get_queue_as_xml q) = Ok (OmqQueue.queue_document q) ->
  int_field (OmqQueue.id q) ->
  int_field (OmqQueue.max_depth q) ->
  int_field (OmqQueue.max_msg_length q) ->
  int_field (OmqQueue.queue_manager_id q) ->
  OmqQueue.from_xml parseString (OmqQueue.get_queue_as_xml q) =
  Ok (OmqQueue.init
        (as_text (OmqQueue.name q))
        (OmqQueue.queue_manager_id q)
        (OmqQueue.max_depth q)
        (OmqQueue.max_msg_length q)
        (as_text (OmqQueue.send_enabled q))
        (Some (truth_int (OmqQueue.receive_enabled q)))
        (as_text (OmqQueue.description q))
        (OmqQueue.id q)
        None
        (as_text (OmqQueue.visibility_timeout q))).
Proof.
  intros Hparse Hid Hdepth Hlength Hmgr.
  unfold OmqQueue.from_xml, OmqQueue.from_xml_body. rewrite Hparse. cbn [bind].
  rewrite (read_text_field _ "description" (OmqQueue.description q)) by queue_elements.
  cbn [bind].
  rewrite (read_int_field _ "id" (OmqQueue.id q)) by (queue_elements || assumption).
  cbn [bind].
  rewrite (read_int_field _ "max_depth" (OmqQueue.max_depth q))
    by (queue_elements || assumption).
  cbn [bind].
  rewrite (read_int_field _ "max_message_length" (OmqQueue.max_msg_length q))
    by (queue_elements || assumption).
  cbn [bind].
  rewrite (read_text_field _ "name" (OmqQueue.name q)) by queue_elements.
  cbn [bind].
  rewrite (read_int_field _ "queue_manager_id" (OmqQueue.queue_manager_id q))
    by (queue_elements || assumption).
  cbn [bind].
  rewrite (read_bool_field _ "receive_enabled" (OmqQueue.receive_enabled q))
    by queue_elements.
  cbn [bind].
  rewrite (read_text_field _ "send_enabled" (OmqQueue.send_enabled q)) by queue_elements.
  cbn [bind].
  rewrite (read_text_field _ "visibility_timeout" (OmqQueue.visibility_timeout q))
    by queue_elements.
  cbn [bind].
  rewrite (read_missing_field _ "depth") by queue_elements.
  reflexivity.
Qed.

Lemma jobs_queue_round_trip :
  OmqQueue.from_xml Expat.parseString (OmqQueue.get_queue_as_xml jobs_queue) =
  Ok (OmqQueue.init (Some (VStr "jobs & tasks")) (Some (VInt 4)) (Some (VInt 100)) None
        (Some (VStr "1")) (Some (VInt 1)) (Some (VStr "a <test> queue")) (Some (VInt 30))
        None None).
Proof.
  refine (queue_round_trip Expat.parseString jobs_queue eq_refl I I I I).
Defined.

(** ** OmqMessage: the encoding of a constructed message *)

(** X7.  Every message the constructor builds has a true encoding, [ENC_UTF8]
    when none (or a false one) was given; so the serialised message always
    starts with a [body_encoding_id] element and its root is never empty,
    and the body of a message built without an encoding is escaped. *)
Theorem constructed_message_encoding
    (body encoding body_type priority description sender queue_id mid : option value) :
  let m := OmqMessage.init body encoding body_type priority description sender queue_id mid in
  truthy (OmqMessage.encoding m) = true /\
  (truthy encoding = false ->
   OmqMessage.encoding m = Some OmqMessage.ENC_UTF8 /\
   OmqMessage.escaped_encoding (OmqMessage.encoding m) = true) /\
  (truthy encoding = true -> OmqMessage.encoding m = encoding) /\
  exists x rest,
    OmqMessage.encoding m = Some x /\
    OmqMessage.message_document m =
    mkDocument [Element "message" []
                  (Element "body_encoding_id" [] [Text (escape (py_str x))] :: rest)].
Proof.
  cbn zeta.
  assert (Htrue : truthy (OmqMessage.encoding
            (OmqMessage.init body encoding body_type priority description sender queue_id mid))
          = true).
  { unfold OmqMessage.init. cbn [OmqMessage.encoding].
    destruct (truthy encoding) eqn:E; [assumption | reflexivity]. }
  split; [exact Htrue|].
  split.
  { intros E. unfold OmqMessage.init. cbn [OmqMessage.encoding]. now rewrite E. }
  split.
  { intros E. unfold OmqMessage.init. cbn [OmqMessage.encoding]. now rewrite E. }
  rewrite message_document_children. unfold message_children.
  destruct (OmqMessage.encoding
              (OmqMessage.init body encoding body_type priority description sender queue_id mid))
    as [x|] eqn:E; [|discriminate Htrue].
  exists x. eexists. split; [reflexivity|]. cbn [field_element app]. reflexivity.
Qed.

(** ** OmqConnection: what a status and a body lead to *)

Lemma py_int_error (s : string) (e : exn) :
  py_int s = Raise e -> e = invalid_literal s.
Proof.
  unfold py_int. intros H.
  destruct (strip whitespace s) as [|c r].
  - destruct (digits_value ""); [discriminate | now injection H].
  - destruct (Ascii.eqb c "-"); [|destruct (Ascii.eqb c "+")];
      match type of H with
      | context [digits_value ?x] => destruct (digits_value x)
      end; first [discriminate | now injection H].
Qed.

Lemma handle_error_raises {A : Type} (parseString : xml_parser) (resp : response) :
  exists e, @OmqConnection._handle_error A parseString resp = Raise e.
Proof.
  unfold OmqConnection._handle_error.
  destruct (OmqServerException_init parseString (read resp)); cbn; eauto.
Qed.

(** X8.  [_handle_error] never returns.  It raises the server's message, taken
    from the last [error] element of the body, or the fallback when the body
    has none; when the body is not well-formed it raises the parser's
    error as it is, not an [OmqServerException]. *)
Theorem handle_error_outcomes (A : Type) (parseString : xml_parser) (resp : response) :
  (exists e, @OmqConnection._handle_error A parseString resp = Raise e) /\
  (forall e, parseString (read resp) = Raise e ->
     @OmqConnection._handle_error A parseString resp = Raise e) /\
  (forall doc, parseString (read resp) = Ok doc ->
     getElementsByTagName doc "error" = [] ->
     @OmqConnection._handle_error A parseString resp
       = Raise (OmqServerException "Unknown server error")) /\
  (forall doc front tag n data, parseString (read resp) = Ok doc ->
     getElementsByTagName doc "error" = (front ++ [tag])%list ->
     firstChild tag = Some n -> node_data n = Ok data ->
     @OmqConnection._handle_error A parseString resp = Raise (OmqServerException data)).
Proof.
  split; [apply handle_error_raises|].
  unfold OmqConnection._handle_error, OmqServerException_init.
  split; [|split].
  - intros e He. now rewrite He.
  - intros doc Hdoc Htags. rewrite Hdoc. cbn [bind]. now rewrite Htags.
  - intros doc front tag n data Hdoc Htags Hfirst Hdata.
    rewrite Hdoc. cbn [bind]. rewrite Htags, pop_last.
    unfold firstChild_data. now rewrite Hfirst, Hdata.
Qed.

(** X9.  [send_message] returns exactly when the status is 201: every other
    status, 200 included, raises. *)
Theorem send_message_returns_iff_created (parseString : xml_parser) (send : transport)
    (self : OmqConnection.t) (queue_id : Z) (msg : OmqMessage.t)
    (transaction_id : option Z) (resp : response) :
  send (OmqConnection.send_message_request self queue_id msg transaction_id) = Ok resp ->
  (OmqConnection.send_message parseString send self queue_id msg transaction_id = Ok tt
   <-> status resp = 201%Z).
Proof.
  intros Hsend. unfold OmqConnection.send_message. rewrite Hsend. cbn [bind].
  destruct (Z.eqb_spec (status resp) 201) as [E | E].
  - tauto.
  - split; [|contradiction].
    destruct (@handle_error_raises unit parseString resp) as [e He].
    rewrite He. discriminate.
Qed.

Lemma send_message_forbidden :
  OmqConnection.send_message Expat.parseString
    (reply 403 None "<errors><error>quota exceeded</error></errors>")
    some_connection 30 hello_message None = Ok tt
  <-> 403%Z = 201%Z.
Proof.
  refine (send_message_returns_iff_created Expat.parseString _ some_connection 30
            hello_message None (mkResponse 403 _ _) eq_refl).
Defined.

Lemma transaction_action_sends (parseString : xml_parser) (send : transport)
    (self : OmqConnection.t) (transaction_id : Z) (action : string) :
  OmqConnection._transaction_action parseString send self transaction_id action =
  resp <- send (OmqConnection.transaction_action_request self transaction_id action) ;;
  if (status resp =? 200)%Z then Ok tt
  else OmqConnection._handle_error parseString resp.
Proof.
  reflexivity.
Qed.

(** X10.  [commit] and [rollback] return exactly when the status is 200: every
    other status, 201 or 204 included, raises. *)
Theorem transaction_action_returns_iff_ok (parseString : xml_parser) (send : transport)
    (self : OmqConnection.t) (transaction_id : Z) (resp : response) :
  (send (OmqConnection.transaction_action_request self transaction_id "commit") = Ok resp ->
   (OmqConnection.commit parseString send self transaction_id = Ok tt
    <-> status resp = 200%Z)) /\
  (send (OmqConnection.transaction_action_request self transaction_id "rollback") = Ok resp ->
   (OmqConnection.rollback parseString send self transaction_id = Ok tt
    <-> status resp = 200%Z)).
Proof.
  split; intros Hsend;
    unfold OmqConnection.commit, OmqConnection.rollback;
    rewrite transaction_action_sends, Hsend; cbn [bind];
    (destruct (Z.eqb_spec (status resp) 200) as [E | E];
     [tauto
     | split; [|contradiction];
       destruct (@handle_error_raises unit parseString resp) as [e He];
       rewrite He; discriminate]).
Qed.

(** X11.  [receive_message] returns exactly when the status is below 400, even
    on a body that is no message; every message it returns has the encoding
    [ENC_UTF8]; and a reply whose [body_encoding_id] does not read as the
    integer 1 comes back as [None]. *)
Theorem receive_message_returns (parseString : xml_parser) (send : transport)
    (self : OmqConnection.t) (queue_id : Z) (transaction_id : option Z) (resp : response) :
  send (OmqConnection.receive_message_request self queue_id transaction_id) = Ok resp ->
  ((exists r, OmqConnection.receive_message parseString send self queue_id transaction_id = Ok r)
   <-> (status resp < 400)%Z) /\
  (forall m,
     OmqConnection.receive_message parseString send self queue_id transaction_id = Ok (Some m) ->
     OmqMessage.encoding m = Some OmqMessage.ENC_UTF8) /\
  (forall doc,
     (status resp < 400)%Z ->
     parseString (read resp) = Ok doc ->
     XmlHelper.get_tag_content doc "body_encoding_id" true <> Ok (Some OmqMessage.ENC_UTF8) ->
     OmqConnection.receive_message parseString send self queue_id transaction_id = Ok None).
Proof.
  intros Hsend. unfold OmqConnection.receive_message. rewrite Hsend. cbn [bind].
  destruct (Z.ltb_spec (status resp) 400) as [E | E].
  - split; [|split].
    + split; [intros _; assumption | intros _].
      unfold OmqMessage.from_xml.
      destruct (OmqMessage.from_xml_body parseString (read resp)); cbn; eauto.
    + intros m Hm. unfold OmqMessage.from_xml in Hm.
      destruct (OmqMessage.from_xml_body parseString (read resp)) as [m'|] eqn:Hbody;
        cbn in Hm; [|discriminate].
      injection Hm as ->.
      now apply from_xml_body_encoding in Hbody as (_ & _ & _ & Henc).
    + intros doc _ Hdoc Henc. apply from_xml_None. intros m Hm.
      apply from_xml_body_encoding in Hm as (doc' & Hdoc' & Henc' & _).
      rewrite Hdoc in Hdoc'. injection Hdoc' as <-. contradiction.
  - destruct (@handle_error_raises (option OmqMessage.t) parseString resp) as [e He].
    rewrite He. split; [|split].
    + split; [intros [r Hr]; discriminate | lia].
    + intros m Hm. discriminate.
    + intros doc Hst. lia.
Qed.

Lemma receive_cdata_reply :
  OmqConnection.receive_message Expat.parseString
    (reply 200 None
       ("<message><body_encoding_id type='integer'>2</body_encoding_id>" ++
        "<body>text</body></message>"))
    some_connection 30 None = Ok None.
Proof.
  refine (proj2 (proj2 (receive_message_returns Expat.parseString _ some_connection 30 None
                          (mkResponse 200
                             (fun name => if String.eqb name "location" then None else None)
                             ("<message><body_encoding_id type='integer'>2</body_encoding_id>" ++
                              "<body>text</body></message>"))
                          eq_refl))
            (mkDocument [Element "message" []
                           [Element "body_encoding_id" [("type", "integer")] [Text "2"];
                            Element "body" [] [Text "text"]]])
            eq_refl eq_refl _).
  discriminate.
Defined.

(** A reply whose encoding is typed as a boolean and spelt [TRUE] reads as
    1 through [str_as_bool], and is returned as a UTF-8 message. *)
Example receive_boolean_encoding :
  OmqConnection.receive_message Expat.parseString
    (reply 200 None
       ("<message><body_encoding_id type='boolean'>TRUE</body_encoding_id>" ++
        "<body>text</body></message>"))
    some_connection 30 None
  = Ok (Some (OmqMessage.init (Some (VStr "text")) (Some OmqMessage.ENC_UTF8)
                None None None None None None)).
Proof. reflexivity. Qed.

(** X12.  [get_queue] on a status below 400 returns a queue or raises the
    library's [OmqException]: nothing else comes out of a reply that is not
    an error. *)
Theorem get_queue_on_success_status (parseString : xml_parser) (send : transport)
    (self : OmqConnection.t) (queue_id : Z) (resp : response) :
  send (OmqConnection.get_queue_request self queue_id) = Ok resp ->
  (status resp < 400)%Z ->
  (exists q, OmqConnection.get_queue parseString send self queue_id = Ok q /\
             OmqQueue.from_xml_body parseString (read resp) = Ok q) \/
  (exists e, OmqConnection.get_queue parseString send self queue_id
               = Raise (OmqException (repr_exn e)) /\
             OmqQueue.from_xml_body parseString (read resp) = Raise e).
Proof.
  intros Hsend Hst. unfold OmqConnection.get_queue. rewrite Hsend. cbn [bind].
  apply Z.ltb_lt in Hst. rewrite Hst. unfold OmqQueue.from_xml.
  destruct (OmqQueue.from_xml_body parseString (read resp)) as [q|e]; cbn; eauto.
Qed.

Lemma get_queue_malformed_reply :
  (exists q, OmqConnection.get_queue Expat.parseString (reply 200 None "<queue>")
               some_connection 30 = Ok q /\
             OmqQueue.from_xml_body Expat.parseString "<queue>" = Ok q) \/
  (exists e, OmqConnection.get_queue Expat.parseString (reply 200 None "<queue>")
               some_connection 30 = Raise (OmqException (repr_exn e)) /\
             OmqQueue.from_xml_body Expat.parseString "<queue>" = Raise e).
Proof.
  refine (get_queue_on_success_status Expat.parseString _ some_connection 30
            (mkResponse 200 _ _) eq_refl eq_refl).
Defined.

(** X13.  [get_queue_depth] never raises.  It returns [None] when the transport
    fails, when the status is 400 or more and when the reply cannot be read
    as a queue; otherwise it returns the depth read from the reply. *)
Theorem get_queue_depth_total (parseString : xml_parser) (send : transport)
    (self : OmqConnection.t) (queue_id : Z) :
  (exists r, OmqConnection.get_queue_depth parseString send self queue_id = Ok r) /\
  (forall e, send (OmqConnection.get_queue_request self queue_id) = Raise e ->
     OmqConnection.get_queue_depth parseString send self queue_id = Ok None) /\
  (forall resp, send (OmqConnection.get_queue_request self queue_id) = Ok resp ->
     (400 <= status resp)%Z ->
     OmqConnection.get_queue_depth parseString send self queue_id = Ok None) /\
  (forall resp e, send (OmqConnection.get_queue_request self queue_id) = Ok resp ->
     (status resp < 400)%Z ->
     OmqQueue.from_xml_body parseString (read resp) = Raise e ->
     OmqConnection.get_queue_depth parseString send self queue_id = Ok None) /\
  (forall resp q, send (OmqConnection.get_queue_request self queue_id) = Ok resp ->
     (status resp < 400)%Z ->
     OmqQueue.from_xml_body parseString (read resp) = Ok q ->
     OmqConnection.get_queue_depth parseString send self queue_id = Ok (OmqQueue.depth q)).
Proof.
  unfold OmqConnection.get_queue_depth, OmqConnection.get_queue.
  split; [|split; [|split; [|split]]].
  - match goal with
    | |- exists r, try_except ?b _ = Ok r => destruct b; cbn; eauto
    end.
  - intros e He. now rewrite He.
  - intros resp Hsend Hst. rewrite Hsend. cbn [bind].
    apply Z.ltb_ge in Hst. rewrite Hst.
    destruct (@handle_error_raises OmqQueue.t parseString resp) as [e He].
    now rewrite He.
  - intros resp e Hsend Hst He. rewrite Hsend. cbn [bind].
    apply Z.ltb_lt in Hst. rewrite Hst. unfold OmqQueue.from_xml. now rewrite He.
  - intros resp q Hsend Hst Hq. rewrite Hsend. cbn [bind].
    apply Z.ltb_lt in Hst. rewrite Hst. unfold OmqQueue.from_xml. now rewrite Hq.
Qed.

(** ** OmqConnection.open_transaction: the location header *)

(** X14.  [open_transaction] returns [n] for every location that holds the
    numeral of [n] between characters of the service's URL, whatever their
    order: the trailing slash is not needed, and a longer path is accepted
    as well. *)
Theorem open_transaction_url_chars (parseString : xml_parser) (send : transport)
    (self : OmqConnection.t) (resp : response) (before after : string) (n : Z) :
  send (OmqConnection.open_transaction_request self) = Ok resp ->
  (status resp < 400)%Z ->
  all_chars (inside location_chars) before = true ->
  all_chars (inside location_chars) after = true ->
  getheader resp "location" = Some (before ++ str_of_Z n ++ after) ->
  OmqConnection.open_transaction parseString send self = Ok (Some n).
Proof.
  intros Hsend Hst Hbefore Hafter Hloc.
  rewrite (open_transaction_success parseString send self resp Hsend Hst), Hloc.
  now rewrite strip_location.
Qed.

Lemma open_transaction_longer_path :
  OmqConnection.open_transaction Expat.parseString
    (reply 201 (Some "https://mq.onlinemq.com/transactions/42/commit") "")
    some_connection = Ok (Some 42%Z).
Proof.
  refine (open_transaction_url_chars Expat.parseString _ some_connection
            (mkResponse 201 _ _) "https://mq.onlinemq.com/transactions/" "/commit" 42
            eq_refl eq_refl eq_refl eq_refl eq_refl).
Defined.

(** X15.  [open_transaction] raises on every status of 400 or more; on a lower
    status with a location that does not strip down to a numeral it raises
    the [ValueError] of [int], which is no error of the library. *)
Theorem open_transaction_failures (parseString : xml_parser) (send : transport)
    (self : OmqConnection.t) (resp : response) :
  send (OmqConnection.open_transaction_request self) = Ok resp ->
  ((400 <= status resp)%Z ->
   exists e, OmqConnection.open_transaction parseString send self = Raise e) /\
  (forall location e,
     (status resp < 400)%Z ->
     getheader resp "location" = Some location ->
     py_int (strip location_chars location) = Raise e ->
     OmqConnection.open_transaction parseString send self = Raise e /\
     e = invalid_literal (strip location_chars location) /\
     is_library_error e = false).
Proof.
  intros Hsend. split.
  - intros Hst. unfold OmqConnection.open_transaction. rewrite Hsend. cbn [bind].
    apply Z.ltb_ge in Hst. rewrite Hst.
    apply handle_error_raises.
  - intros location e Hst Hloc Hint.
    rewrite (open_transaction_success parseString send self resp Hsend Hst), Hloc, Hint.
    split; [reflexivity|].
    apply py_int_error in Hint. subst e. split; reflexivity.
Qed.

Lemma open_transaction_other_host :
  OmqConnection.open_transaction Expat.parseString
    (reply 201 (Some "https://example.org/transactions/42/") "")
    some_connection = Raise (invalid_literal "xample.org/transactions/42") /\
  invalid_literal "xample.org/transactions/42"
    = invalid_literal (strip location_chars "https://example.org/transactions/42/") /\
  is_library_error (invalid_literal "xample.org/transactions/42") = false.
Proof.
  refine (proj2 (open_transaction_failures Expat.parseString _ some_connection
                   (mkResponse 201 _ _) eq_refl)
            "https://example.org/transactions/42/" _ eq_refl eq_refl eq_refl).
Defined.

(** ** OmqConnection: transport failures and the transaction parameter *)

(** A failure of the transport comes out of every operation as it is,
    not wrapped in an exception of the library ([get_queue_depth] apart,
    which returns [None]). *)
Lemma transport_failure_propagates (parseString : xml_parser) (send : transport)
    (self : OmqConnection.t) (e : exn) :
  (send (OmqConnection.open_transaction_request self) = Raise e ->
   OmqConnection.open_transaction parseString send self = Raise e) /\
  (forall id action,
     send (OmqConnection.transaction_action_request self id action) = Raise e ->
     OmqConnection._transaction_action parseString send self id action = Raise e) /\
  (forall queue_id msg transaction_id,
     send (OmqConnection.send_message_request self queue_id msg transaction_id) = Raise e ->
     OmqConnection.send_message parseString send self queue_id msg transaction_id = Raise e) /\
  (forall queue_id transaction_id,
     send (OmqConnection.receive_message_request self queue_id transaction_id) = Raise e ->
     OmqConnection.receive_message parseString send self queue_id transaction_id = Raise e) /\
  (forall queue_id,
     send (OmqConnection.get_queue_request self queue_id) = Raise e ->
     OmqConnection.get_queue parseString send self queue_id = Raise e /\
     OmqConnection.get_queue_depth parseString send self queue_id = Ok None).
Proof.
  repeat split.
  - intros H. unfold OmqConnection.open_transaction. now rewrite H.
  - intros id action H. rewrite transaction_action_sends. now rewrite H.
  - intros queue_id msg transaction_id H. unfold OmqConnection.send_message. now rewrite H.
  - intros queue_id transaction_id H. unfold OmqConnection.receive_message. now rewrite H.
  - unfold OmqConnection.get_queue. now rewrite H.
  - unfold OmqConnection.get_queue_depth, OmqConnection.get_queue. now rewrite H.
Qed.

(** X16.  [send_message] always posts the message's XML.  The transaction
    parameter is tested for truth: for transaction 0, [send_message] and
    [receive_message] build exactly the request they build without a
    transaction, to [/queues/{queue_id}/messages.xml] for [send_message];
    for any other transaction [n], [send_message] posts to
    [/queues/{queue_id}/messages.xml?transaction_id={n}]. *)
Theorem transaction_zero_is_dropped (self : OmqConnection.t) (queue_id : Z)
    (msg : OmqMessage.t) :
  OmqConnection.send_message_request self queue_id msg (Some 0%Z) =
  OmqConnection.send_message_request self queue_id msg None /\
  OmqConnection.receive_message_request self queue_id (Some 0%Z) =
  OmqConnection.receive_message_request self queue_id None /\
  (forall transaction_id,
     req_method (OmqConnection.send_message_request self queue_id msg transaction_id) = "POST" /\
     req_body (OmqConnection.send_message_request self queue_id msg transaction_id) =
     Some (OmqMessage.get_message_as_xml msg)) /\
  req_path (OmqConnection.send_message_request self queue_id msg None) =
    "/queues/" ++ str_of_Z queue_id ++ "/messages.xml" /\
  (forall n, n <> 0%Z ->
     req_path (OmqConnection.send_message_request self queue_id msg (Some n)) =
     "/queues/" ++ str_of_Z queue_id ++ "/messages.xml?transaction_id=" ++ str_of_Z n).
Proof.
  split; [reflexivity|]. split; [reflexivity|].
  split; [intros transaction_id; split; reflexivity|].
  split.
  { unfold OmqConnection.send_message_request, OmqConnection._request,
      OmqConnection.with_transaction, OmqConnection._append_postfix,
      OmqConnection.URL_POSTFIX.
    cbn [req_path]. now rewrite !append_assoc. }
  intros n Hn. apply Z.eqb_neq in Hn.
  unfold OmqConnection.send_message_request, OmqConnection._request,
    OmqConnection.with_transaction, OmqConnection.transaction_given,
    OmqConnection._append_postfix, OmqConnection.URL_POSTFIX.
  cbn [req_path option_map truthy]. rewrite Hn. cbn [negb].
  now rewrite !append_assoc.
Qed.

(** ** OmqConnection.get_basic_auth *)

Lemma last_char_rstrip (chars s : string) (c : ascii) :
  last_char (rstrip chars s) = Some c -> mem c chars = false.
Proof.
  revert c. induction s as [|d s IH]; simpl; intros c; [discriminate|].
  destruct (rstrip chars s) as [|d' r'] eqn:E.
  - destruct (mem d chars) eqn:Hd; simpl; [discriminate|].
    intros [= <-]. assumption.
  - intros H. apply IH. exact H.
Qed.

Lemma last_char_app (s t : string) :
  t <> "" -> last_char (s ++ t) = last_char t.
Proof.
  intros Ht. induction s as [|c s IH]; [reflexivity|].
  simpl. rewrite IH. destruct (s ++ t) eqn:E; [|reflexivity].
  destruct s; simpl in E; [contradiction | discriminate].
Qed.

Lemma rstrip_last_outside (chars s : string) (c : ascii) :
  last_char s = Some c -> mem c chars = false -> rstrip chars s = s.
Proof.
  induction s as [|d s IH]; [discriminate|].
  destruct s as [|d' s'].
  - simpl. intros [= ->] Hc. now rewrite Hc.
  - intros Hlast Hc. change (last_char (String d (String d' s')))
      with (last_char (String d' s')) in Hlast.
    specialize (IH Hlast Hc).
    change (rstrip chars (String d (String d' s')))
      with (match rstrip chars (String d' s') with
            | "" => if mem d chars then "" else str1 d
            | r' => String d r'
            end).
    now rewrite IH.
Qed.

(** X17.  The [Authorization] value is [Basic ] and the codec's output for
    [user:password] without the newlines at its ends, so it never ends with
    a newline (the legacy codec appends one); an output with no newline at
    either end is used as it is, inner newlines included. *)
Theorem basic_auth_has_no_trailing_newline (b64encode : string -> string)
    (user password : string) :
  OmqConnection.credentials (OmqConnection.init b64encode user password) =
    "Basic " ++ strip (str1 LF) (b64encode (user ++ ":" ++ password)) /\
  last_char (OmqConnection.credentials (OmqConnection.init b64encode user password))
    <> Some LF /\
  (forall c d r,
     b64encode (user ++ ":" ++ password) = String c r ->
     last_char (String c r) = Some d -> c <> LF -> d <> LF ->
     OmqConnection.credentials (OmqConnection.init b64encode user password)
       = "Basic " ++ b64encode (user ++ ":" ++ password)).
Proof.
  split; [reflexivity|]. split.
  - cbn [OmqConnection.init OmqConnection.credentials].
    unfold OmqConnection.get_basic_auth.
    destruct (strip (str1 LF) (b64encode (user ++ ":" ++ password))) as [|c r] eqn:E.
    + discriminate.
    + rewrite last_char_app by discriminate. rewrite <- E. unfold strip.
      intros H. apply last_char_rstrip in H. discriminate H.
  - intros c d r Hout Hlast Hc Hd.
    cbn [OmqConnection.init OmqConnection.credentials].
    unfold OmqConnection.get_basic_auth. rewrite Hout. f_equal.
    unfold strip. rewrite lstrip_outside.
    + apply rstrip_last_outside with (c := d); [assumption|].
      simpl. apply Ascii.eqb_neq in Hd. now rewrite Hd.
    + unfold outside. simpl. apply Ascii.eqb_neq in Hc. now rewrite Hc.
Qed.

(** ** XmlHelper.str_as_bool *)

Lemma lower_char_idempotent (c : ascii) : lower_char (lower_char c) = lower_char c.
Proof.
  destruct c as [[] [] [] [] [] [] [] []]; reflexivity.
Qed.

Lemma lower_idempotent (s : string) : lower (lower s) = lower s.
Proof.
  induction s as [|c s IH]; simpl; [reflexivity|].
  now rewrite lower_char_idempotent, IH.
Qed.

(** X18.  [str_as_bool] answers 1 or 0 and does not look at the case of the
    letters: it is 1 exactly for the spellings of [true], so [1], [yes] and
    the empty text all read as false. *)
Theorem str_as_bool_ignores_case (s : string) :
  XmlHelper.str_as_bool (lower s) = XmlHelper.str_as_bool s /\
  (XmlHelper.str_as_bool s = 1%Z <-> lower s = "true") /\
  (XmlHelper.str_as_bool s = 0%Z <-> lower s <> "true").
Proof.
  unfold XmlHelper.str_as_bool. rewrite lower_idempotent.
  split; [reflexivity|].
  destruct (String.eqb_spec (lower s) "true") as [E | E]; split; split;
    intros H; try reflexivity; try assumption; try discriminate; contradiction.
Qed.

(** ** Revisited: an element as first child, and the host of a location *)

(** C7, at a field whose first child is an element.  When the last element
    of the requested name starts with an element, [get_tag_content] does
    not return [None]: reading [data] from that child raises
    [AttributeError], whatever text the field holds after it. *)
Theorem get_tag_content_element_child (doc : Document) (tag_name : string)
    (unescape_xml : bool) (front : list node) (tag : node)
    (t : string) (attrs : list (string * string)) (cs : list node) :
  getElementsByTagName doc tag_name = (front ++ [tag])%list ->
  firstChild tag = Some (Element t attrs cs) ->
  XmlHelper.get_tag_content doc tag_name unescape_xml
    = Raise (AttributeError "Element instance has no attribute 'data'") /\
  XmlHelper.get_tag_content doc tag_name unescape_xml <> Ok None.
Proof.
  intros Htags Hfirst.
  assert (H : XmlHelper.get_tag_content doc tag_name unescape_xml
              = Raise (AttributeError "Element instance has no attribute 'data'")).
  { unfold XmlHelper.get_tag_content. now rewrite Htags, pop_last, Hfirst. }
  split; [exact H|]. rewrite H. discriminate.
Qed.

Lemma get_tag_content_nested_id :
  Expat.parseString "<queue><id><x/></id></queue>" = Ok queue_nested_id /\
  XmlHelper.get_tag_content queue_nested_id "id" true
    = Raise (AttributeError "Element instance has no attribute 'data'") /\
  XmlHelper.get_tag_content queue_nested_id "id" true <> Ok None.
Proof.
  split; [reflexivity|].
  refine (get_tag_content_element_child queue_nested_id "id" true []
            (Element "id" [] [Element "x" [] []]) "x" [] [] eq_refl eq_refl).
Defined.

(** The field is read from the first child only: a comment in front of the
    text is taken for the value. *)
Example get_tag_content_reads_comment :
  (doc <- Expat.parseString "<queue><id type='integer'><!--7-->5</id></queue>" ;;
   XmlHelper.get_tag_content doc "id" true) = Ok (Some (VInt 7)).
Proof. reflexivity. Qed.

Lemma digit_is_no_sign (c : ascii) :
  is_digit c = true -> Ascii.eqb c "-" = false /\ Ascii.eqb c "+" = false.
Proof.
  destruct c as [[] [] [] [] [] [] [] []]; vm_compute; intros H;
    first [split; reflexivity | discriminate H].
Qed.

Lemma uint_of_string_digits (s : string) (d : Decimal.uint) :
  DecimalString.NilEmpty.uint_of_string s = Some d -> all_chars is_digit s = true.
Proof.
  revert d. induction s as [|c s IH]; simpl; intros d H; [reflexivity|].
  destruct (DecimalString.NilEmpty.uint_of_string s) as [d'|]; [|discriminate H].
  rewrite (IH d' eq_refl), andb_true_r.
  apply DecimalString.uint_of_char_spec in H.
  repeat (destruct H as [[-> _] | H]; [reflexivity|]).
  destruct H as [-> _]. reflexivity.
Qed.

Lemma digits_value_digits (ds : string) (n : Z) :
  digits_value ds = Some n -> all_chars is_digit ds = true /\ ds <> "".
Proof.
  unfold digits_value. destruct ds as [|c r]; [discriminate|].
  intros H. split; [|discriminate].
  destruct (DecimalString.NilEmpty.uint_of_string (String c r)) as [d|] eqn:E;
    [|discriminate H].
  now apply uint_of_string_digits in E.
Qed.

(** [int] of a text made of decimal digits is the number the digits
    denote, leading zeros included. *)
Lemma py_int_digits (ds : string) (n : Z) :
  digits_value ds = Some n -> py_int ds = Ok n.
Proof.
  intros Hn. destruct (digits_value_digits ds n Hn) as [Hds Hne].
  unfold py_int. rewrite strip_all_outside.
  - destruct ds as [|c r]; [contradiction|].
    pose proof Hds as Hc. simpl in Hc. apply andb_true_iff in Hc as [Hc _].
    destruct (digit_is_no_sign c Hc) as [-> ->]. now rewrite Hn.
  - apply all_chars_impl with (p := is_digit); [|assumption].
    intros c Hc. apply digit_not_space. unfold is_numeral_char. now rewrite Hc.
Qed.

(** C9, as the code has it.  When the transport answers [open_transaction]
    with a status below 400 and a location header
    ['https://mq.onlinemq.com/transactions/{n}/'], with the host of the
    service, or ['/transactions/{n}/'], where [{n}] is a decimal numeral
    (digits, leading zeros allowed) denoting [n], the operation returns [n];
    when the status is below 400 and there is no location header, it
    returns [None]. *)
Theorem open_transaction_service_location (parseString : xml_parser) (send : transport)
    (self : OmqConnection.t) (resp : response) :
  send (OmqConnection.open_transaction_request self) = Ok resp ->
  (status resp < 400)%Z ->
  (forall (prefix numeral : string) (n : Z),
      prefix = "https://" ++ OmqConnection.HTTPS_ADDR ++ "/transactions/" \/
      prefix = "/transactions/" ->
      digits_value numeral = Some n ->
      getheader resp "location" = Some (prefix ++ numeral ++ "/") ->
      OmqConnection.open_transaction parseString send self = Ok (Some n)) /\
  (forall n, (0 <= n)%Z -> digits_value (str_of_Z n) = Some n) /\
  (getheader resp "location" = None ->
      OmqConnection.open_transaction parseString send self = Ok None).
Proof.
  intros Hsend Hst.
  rewrite (open_transaction_success parseString send self resp Hsend Hst).
  split; [|split].
  - intros prefix numeral n Hprefix Hn Hloc. rewrite Hloc.
    destruct (digits_value_digits numeral n Hn) as [Hds _].
    rewrite strip_core.
    + now rewrite (py_int_digits numeral n Hn).
    + destruct Hprefix as [-> | ->]; reflexivity.
    + reflexivity.
    + apply all_chars_impl with (p := is_digit); [|assumption].
      intros c Hc. apply numeral_not_location_char.
      unfold is_numeral_char. now rewrite Hc.
  - intros n Hn.
    destruct (str_of_Z_shape n) as (d & Hd & [(E & _ & V) | (_ & Hneg & _)]); [|lia].
    now rewrite E, digits_value_uint, V.
  - intros Hloc. now rewrite Hloc.
Qed.

Lemma open_transaction_leading_zeros :
  OmqConnection.open_transaction Expat.parseString
    (reply 201 (Some "https://mq.onlinemq.com/transactions/0042/") "")
    some_connection = Ok (Some 42%Z).
Proof.
  refine (proj1 (open_transaction_service_location Expat.parseString _ some_connection
                   (mkResponse 201 _ _) eq_refl eq_refl)
            "https://mq.onlinemq.com/transactions/" "0042" 42%Z
            (or_introl eq_refl) eq_refl eq_refl).
Defined.

(** C9 as stated fails: a location of the form
    ['https://host/transactions/{n}/'] with another host does not yield
    [n]; [strip] stops at the first character that is not one of the
    service's URL, and [int] rejects what is left. *)
Lemma open_transaction_foreign_host :
  OmqConnection.open_transaction Expat.parseString
    (reply 201 (Some "https://example.org/transactions/42/") "")
    some_connection
    = Raise (ValueError
               "invalid literal for int() with base 10: 'xample.org/transactions/42'") /\
  OmqConnection.open_transaction Expat.parseString
    (reply 201 (Some "https://example.org/transactions/42/") "")
    some_connection <> Ok (Some 42%Z).
Proof.
  split; [reflexivity | discriminate].
Qed.
